(** * FastComms: a shallow embedding of [fast_comms.cpp]

    The development follows the C++ sources of the [embedded_test]
    namespace: [PacketValidator] (CRC-32 and the 16-bit checksum), and
    [FastComms], the raw link-layer endpoint with its statistics.

    Machine integers are values of [Z] with the wrap-around of their
    C++ type written out; byte vectors are [list byte]; [double] is the
    primitive binary64 float. *)

From Stdlib Require Import String ZArith List Lia Bool PrimFloat Uint63.
From Stdlib.Strings Require Import Byte.
Import ListNotations.
Open Scope Z_scope.

(** ** Machine integers *)

Definition u16 (z : Z) : Z := z mod 2 ^ 16.
Definition u32 (z : Z) : Z := z mod 2 ^ 32.
Definition u64 (z : Z) : Z := z mod 2 ^ 64.

(** Conversion of a wider integer to [int] (two's complement, 32 bits). *)
Definition to_int (z : Z) : Z := (z + 2 ^ 31) mod 2 ^ 32 - 2 ^ 31.

(** [uint8_t] promoted to an integer. *)
Definition byte_val (b : byte) : Z := Z.of_N (Byte.to_N b).

(** ** PacketValidator *)

Module PacketValidator.

(** One turn of the inner loop of [calculate_crc32]:
    [if (crc & 1) crc = (crc >> 1) ^ 0xEDB88320; else crc >>= 1;] *)
Definition crc_shift (crc : Z) : Z :=
  if Z.land crc 1 =? 0
  then Z.shiftr crc 1
  else Z.lxor (Z.shiftr crc 1) 0xEDB88320.

(** The body of the outer loop: [crc ^= byte] and eight shifts. *)
Definition crc_byte (crc : Z) (b : byte) : Z :=
  Nat.iter 8 crc_shift (Z.lxor crc (byte_val b)).

(** [uint32_t PacketValidator::calculate_crc32(const std::vector<uint8_t>&)] *)
Definition calculate_crc32 (data : list byte) : Z :=
  let crc := fold_left crc_byte data 0xFFFFFFFF in
  u32 (Z.lnot crc).

(** [bool PacketValidator::verify_packet(packet, expected_crc)] *)
Definition verify_packet (packet : list byte) (expected_crc : Z) : bool :=
  calculate_crc32 packet =? expected_crc.

(** The [for] loop of [calculate_simple_checksum]: the index advances by
    two, [data[i]] is the high half of the word and [data[i + 1]], when
    it exists, the low half; [sum] is a [uint32_t]. *)
Fixpoint checksum_loop (data : list byte) (sum : Z) : Z :=
  match data with
  | [] => sum
  | [hi] =>
      let word := u16 (Z.shiftl (byte_val hi) 8) in
      u32 (sum + word)
  | hi :: lo :: rest =>
      let word := u16 (Z.shiftl (byte_val hi) 8) in
      let word := Z.lor word (byte_val lo) in
      checksum_loop rest (u32 (sum + word))
  end.

(** [while (sum >> 16) sum = (sum & 0xFFFF) + (sum >> 16);] with the
    number of turns bounded by [turns]. *)
Fixpoint fold_carries (turns : nat) (sum : Z) : Z :=
  match turns with
  | O => sum
  | S turns' =>
      if Z.shiftr sum 16 =? 0 then sum
      else fold_carries turns' (u32 (Z.land sum 0xFFFF + Z.shiftr sum 16))
  end.

(** [uint16_t PacketValidator::calculate_simple_checksum(data)].  A 32-bit
    register needs at most two turns of the folding loop
    (see [fold_carries_exits]). *)
Definition calculate_simple_checksum (data : list byte) : Z :=
  let sum := checksum_loop data 0 in
  let sum := fold_carries 32 sum in
  u16 (Z.land (Z.lnot sum) 0xFFFF).

End PacketValidator.

(** ** Reference definitions of the two checksums *)

Module Reference.

(** The 256 entries of the CRC-32 table of the reflected polynomial
    [0xEDB88320]: entry [i] is [i] shifted out bit by bit. *)
Definition crc_table : list Z :=
  Eval vm_compute in
    map (fun i => Nat.iter 8 PacketValidator.crc_shift (Z.of_nat i)) (seq 0 256).

(** Table-driven reflected CRC-32: initial register [0xFFFFFFFF], one
    table look-up per byte, final XOR with [0xFFFFFFFF]. *)
Definition crc32_step (crc : Z) (b : byte) : Z :=
  let idx := Z.land (Z.lxor crc (byte_val b)) 0xFF in
  Z.lxor (nth (Z.to_nat idx) crc_table 0) (Z.shiftr crc 8).

Definition crc32 (data : list byte) : Z :=
  Z.lxor (fold_left crc32_step data 0xFFFFFFFF) 0xFFFFFFFF.

(** The big-endian 16-bit words of a byte sequence; an odd last byte is
    the high half of a word whose low half is zero. *)
Fixpoint be_words (data : list byte) : list Z :=
  match data with
  | [] => []
  | [hi] => [256 * byte_val hi]
  | hi :: lo :: rest => (256 * byte_val hi + byte_val lo) :: be_words rest
  end.

(** Ones-complement addition of two 16-bit words (end-around carry). *)
Definition ones_add (a b : Z) : Z :=
  let s := a + b in
  if s <? 2 ^ 16 then s else s - 2 ^ 16 + 1.

(** The Internet checksum (RFC 1071) of a byte sequence. *)
Definition internet_checksum (data : list byte) : Z :=
  0xFFFF - fold_left ones_add (be_words data) 0.

(** Sum of a list of words, without any wrap-around. *)
Definition wsum (ws : list Z) : Z := fold_right Z.add 0 ws.

(** The ones-complement value of a non-negative total: [0] stays [0],
    any other total is brought into [1 .. 65535]. *)
Definition ones_norm (z : Z) : Z :=
  if z =? 0 then 0 else (z - 1) mod 65535 + 1.

(** The polynomial, or nothing, according to the bit shifted out. *)
Definition poly_if (b : bool) : Z := if b then 0xEDB88320 else 0.

End Reference.

(** The ASCII digits "123456789". *)
Definition digits_1_9 : list byte :=
  [x31; x32; x33; x34; x35; x36; x37; x38; x39]%byte.

(** ** Statistics and results ([fast_comms.h]) *)

(** [struct PacketStats]: five [uint64_t] counters and a [double]. *)
Record PacketStats := mkPacketStats {
  packets_sent : Z;
  packets_received : Z;
  bytes_sent : Z;
  bytes_received : Z;
  errors : Z;
  avg_latency_us : float
}.

(** [PacketStats::PacketStats()] *)
Definition PacketStats_new : PacketStats :=
  mkPacketStats 0 0 0 0 0 0%float.

(** [struct CommResult] *)
Record CommResult := mkCommResult {
  success : bool;
  data : list byte;
  latency_us : Z;
  error_message : string
}.

(** [CommResult::CommResult()] *)
Definition CommResult_new : CommResult :=
  mkCommResult false [] 0 EmptyString.

(** [result.error_message = msg;] *)
Definition with_error_message (r : CommResult) (msg : string) : CommResult :=
  mkCommResult (success r) (data r) (latency_us r) msg.

(** The private members of [class FastComms]. *)
Record FastComms := mkFastComms {
  interface_name_ : string;
  timeout_ms_ : Z;
  socket_fd_ : Z;
  initialized_ : bool;
  stats_ : PacketStats
}.

(** Assignments to single members. *)
Definition with_timeout_ms (c : FastComms) (t : Z) : FastComms :=
  mkFastComms (interface_name_ c) t (socket_fd_ c) (initialized_ c) (stats_ c).

Definition with_socket_fd (c : FastComms) (fd : Z) : FastComms :=
  mkFastComms (interface_name_ c) (timeout_ms_ c) fd (initialized_ c) (stats_ c).

Definition with_initialized (c : FastComms) (b : bool) : FastComms :=
  mkFastComms (interface_name_ c) (timeout_ms_ c) (socket_fd_ c) b (stats_ c).

Definition with_stats (c : FastComms) (st : PacketStats) : FastComms :=
  mkFastComms (interface_name_ c) (timeout_ms_ c) (socket_fd_ c)
              (initialized_ c) st.

(** The endpoint is open when both the flag and the descriptor say so. *)
Definition is_open (c : FastComms) : Prop :=
  initialized_ c = true /\ 0 <= socket_fd_ c.

(** ** The host: clock and kernel *)

(** The system calls the endpoint issues for its socket, with the arguments
    that matter.  (What it writes to the console is kept apart, in
    [console_line] below.) *)
Inductive syscall : Type :=
| sys_socket
    (* socket(AF_PACKET, SOCK_RAW, htons(ETH_P_ALL)) *)
| sys_ioctl_ifindex (fd : Z) (ifr_name : string)
    (* ioctl(fd, SIOCGIFINDEX, &ifr) *)
| sys_bind (fd : Z) (sll_ifindex : Z)
    (* bind(fd, &sll, sizeof(sll)) *)
| sys_setsockopt_rcvtimeo (fd : Z) (tv_sec tv_usec : Z)
    (* setsockopt(fd, SOL_SOCKET, SO_RCVTIMEO, &tv, sizeof(tv)) *)
| sys_close (fd : Z)
    (* ::close(fd) *)
| sys_send (fd : Z) (frame : list byte)
    (* send(fd, data.data(), data.size(), 0) *)
| sys_recv (fd : Z) (max_size : nat).
    (* recv(fd, buffer.data(), max_size, 0) *)

(** What a system call gives back: its return value, [errno] after the
    call, the interface index written by [SIOCGIFINDEX], and the bytes
    written into the caller's buffer by [recv]. *)
Record reply := mkReply {
  ret_val : Z;
  errno : Z;
  out_ifindex : Z;
  out_bytes : list byte
}.

(** The host decides the [i]-th reading of the clock (microseconds since
    the epoch of [high_resolution_clock]) and the reply to the system call
    issued after [i] earlier ones. *)
Record Host := mkHost {
  clock : nat -> Z;
  kernel : nat -> syscall -> reply
}.

(** What the endpoint writes to the console: a line of text on
    [std::cerr], or the report of [stress_test] on [std::cout],
    ["Stress test: " << packets << " packets, " << mbps << " Mbps"], with
    the two numbers it prints (their formatting is left to the stream). *)
Inductive console_line : Type :=
| cerr_line (text : string)
| cout_stress_test (packets : Z) (mbps : float).

(** What has happened so far: the number of clock readings, the system
    calls issued and the lines written to the console, the latest first. *)
Record World := mkWorld {
  reads : nat;
  calls : list syscall;
  console : list console_line
}.

Definition EAGAIN : Z := 11.
Definition EWOULDBLOCK : Z := 11.
Definition IFNAMSIZ : nat := 16.

(** ** A state monad over the world and the object *)

Definition State : Type := World * FastComms.

Definition M (A : Type) : Type := State -> A * State.

Definition ret {A : Type} (a : A) : M A := fun s => (a, s).

Definition bind {A B : Type} (m : M A) (k : A -> M B) : M B :=
  fun s => let r := m s in k (fst r) (snd r).

Declare Scope comms_scope.
Delimit Scope comms_scope with comms.
Notation "x <- m ;; k" := (bind m (fun x => k))
  (at level 61, m at next level, right associativity) : comms_scope.
Notation "m ;; k" := (bind m (fun _ => k))
  (at level 61, right associativity) : comms_scope.
Open Scope comms_scope.

(** [*this] *)
Definition this : M FastComms := fun s => (snd s, s).

Definition set_socket_fd (fd : Z) : M unit :=
  fun s => (tt, (fst s, with_socket_fd (snd s) fd)).

Definition set_initialized (b : bool) : M unit :=
  fun s => (tt, (fst s, with_initialized (snd s) b)).

Definition set_timeout_ms (t : Z) : M unit :=
  fun s => (tt, (fst s, with_timeout_ms (snd s) t)).

Definition set_stats (st : PacketStats) : M unit :=
  fun s => (tt, (fst s, with_stats (snd s) st)).

(** ** Helpers on vectors, strings and numbers *)

(** [std::vector<uint8_t>::resize(n)]: truncate, or append zero bytes. *)
Definition resize (buffer : list byte) (n : nat) : list byte :=
  firstn n buffer ++ repeat x00 (n - length buffer).

(** The kernel copies [src] over the front of the buffer. *)
Definition overwrite (src buffer : list byte) : list byte :=
  src ++ skipn (length src) buffer.

(** [c_str()] as [strncpy] sees it: the characters before the first NUL. *)
Fixpoint c_str (s : string) : string :=
  match s with
  | EmptyString => EmptyString
  | String c rest =>
      if Ascii.eqb c Ascii.zero then EmptyString else String c (c_str rest)
  end.

(** [strncpy(dst, src, n)] into a zeroed destination, read back as text. *)
Definition strncpy (src : string) (n : nat) : string :=
  substring 0 n (c_str src).

(** A [uint64_t] converted to [int64_t]. *)
Definition to_int64 (z : Z) : Z := (z + 2 ^ 63) mod 2 ^ 64 - 2 ^ 63.

(** A [uint64_t] converted to [double], rounding to nearest: values below
    [2 ^ 63] directly, larger ones halved with a sticky low bit and
    doubled. *)
Definition double_of_u64 (z : Z) : float :=
  if z <? 2 ^ 63 then PrimFloat.of_uint63 (Uint63.of_Z z)
  else
    let half := Z.lor (Z.shiftr z 1) (Z.land z 1) in
    (PrimFloat.of_uint63 (Uint63.of_Z half) * 2)%float.

(** The [double] literals [0.9] and [0.1]. *)
Definition double_0_9 : float := 0x1.ccccccccccccdp-1%float.
Definition double_0_1 : float := 0x1.999999999999ap-4%float.

(** [(avg * 0.9) + (latency_us * 0.1)] *)
Definition ewma (avg : float) (latency_us : Z) : float :=
  (avg * double_0_9 + double_of_u64 latency_us * double_0_1)%float.

(** [packets_sent++; bytes_sent += bytes;] *)
Definition count_sent (st : PacketStats) (bytes : Z) : PacketStats :=
  mkPacketStats (u64 (packets_sent st + 1)) (packets_received st)
                (u64 (bytes_sent st + bytes)) (bytes_received st)
                (errors st) (avg_latency_us st).

(** [packets_received++; bytes_received += bytes;] *)
Definition count_received (st : PacketStats) (bytes : Z) : PacketStats :=
  mkPacketStats (packets_sent st) (u64 (packets_received st + 1))
                (bytes_sent st) (u64 (bytes_received st + bytes))
                (errors st) (avg_latency_us st).

(** [errors++;] *)
Definition count_failed (st : PacketStats) : PacketStats :=
  mkPacketStats (packets_sent st) (packets_received st)
                (bytes_sent st) (bytes_received st)
                (u64 (errors st + 1)) (avg_latency_us st).

(** [if (latency_us > 0) avg_latency_us = (avg_latency_us * 0.9) + (latency_us * 0.1);] *)
Definition smooth_latency (st : PacketStats) (latency : Z) : PacketStats :=
  if 0 <? latency then
    mkPacketStats (packets_sent st) (packets_received st)
                  (bytes_sent st) (bytes_received st)
                  (errors st) (ewma (avg_latency_us st) latency)
  else st.

(** ** [class FastComms] ([fast_comms.cpp]) *)

Section Endpoint.

Variable host : Host.

(** [uint64_t FastComms::get_timestamp_us()] *)
Definition get_timestamp_us : M Z :=
  fun s =>
    let w := fst s in
    (u64 (clock host (reads w)),
     (mkWorld (S (reads w)) (calls w) (console w), snd s)).

(** Issue a system call: the host replies, the call is recorded. *)
Definition sys (call : syscall) : M reply :=
  fun s =>
    let w := fst s in
    (kernel host (length (calls w)) call,
     (mkWorld (reads w) (call :: calls w) (console w), snd s)).

(** [std::cerr << ... << std::endl] and [std::cout << ... << std::endl]. *)
Definition print (line : console_line) : M unit :=
  fun s =>
    let w := fst s in
    (tt, (mkWorld (reads w) (calls w) (line :: console w), snd s)).

(** [FastComms::FastComms(interface_name, timeout_ms)] *)
Definition FastComms_new (interface_name : string) (timeout_ms : Z) : FastComms :=
  mkFastComms interface_name timeout_ms (-1) false PacketStats_new.

(** [int FastComms::create_raw_socket()] *)
Definition create_raw_socket : M Z :=
  r <- sys sys_socket ;;
  let sockfd := ret_val r in
  if sockfd <? 0 then
    print (cerr_line "Failed to create raw socket (need root privileges)") ;;
    ret (-1)
  else ret sockfd.

(** [int FastComms::bind_to_interface()] *)
Definition bind_to_interface : M Z :=
  self <- this ;;
  let ifr_name := strncpy (interface_name_ self) (IFNAMSIZ - 1) in
  r <- sys (sys_ioctl_ifindex (socket_fd_ self) ifr_name) ;;
  if ret_val r <? 0 then
    print (cerr_line (String.append "Failed to get interface index for "
                                     (interface_name_ self))) ;;
    ret (-1)
  else
    r' <- sys (sys_bind (socket_fd_ self) (out_ifindex r)) ;;
    if ret_val r' <? 0 then
      print (cerr_line (String.append "Failed to bind to interface "
                                       (interface_name_ self))) ;;
      ret (-1)
    else ret 0.

(** [bool FastComms::initialize()] *)
Definition initialize : M bool :=
  self <- this ;;
  if initialized_ self then ret true
  else
    fd <- create_raw_socket ;;
    set_socket_fd fd ;;
    if fd <? 0 then ret false
    else
      bound <- bind_to_interface ;;
      if bound <? 0 then
        sys (sys_close fd) ;;
        set_socket_fd (-1) ;;
        ret false
      else
        self <- this ;;
        let tv_sec := timeout_ms_ self / 1000 in
        let tv_usec := u32 (timeout_ms_ self mod 1000 * 1000) in
        r <- sys (sys_setsockopt_rcvtimeo fd tv_sec tv_usec) ;;
        (if ret_val r <? 0 then
           print (cerr_line "Warning: Failed to set receive timeout")
         else ret tt) ;;
        set_initialized true ;;
        ret true.

(** [void FastComms::close()] *)
Definition close : M unit :=
  self <- this ;;
  (if 0 <=? socket_fd_ self then
     sys (sys_close (socket_fd_ self)) ;;
     set_socket_fd (-1)
   else ret tt) ;;
  set_initialized false.

(** [FastComms::~FastComms()] *)
Definition destroy : M unit := close.

(** [void FastComms::update_stats(bool sent, size_t bytes, uint64_t latency_us)] *)
Definition update_stats (sent : bool) (bytes latency : Z) : M unit :=
  self <- this ;;
  let st := stats_ self in
  let st := if sent then count_sent st bytes else count_received st bytes in
  set_stats (smooth_latency st latency).

(** [stats_.errors++] *)
Definition count_error : M unit :=
  self <- this ;;
  set_stats (count_failed (stats_ self)).

(** [bool FastComms::send_packet(const std::vector<uint8_t>& data)] *)
Definition send_packet (frame : list byte) : M bool :=
  self <- this ;;
  if negb (initialized_ self) || (socket_fd_ self <? 0) then ret false
  else
    start_time <- get_timestamp_us ;;
    r <- sys (sys_send (socket_fd_ self) frame) ;;
    let sent := ret_val r in
    if sent <? 0 then
      count_error ;;
      ret false
    else
      now <- get_timestamp_us ;;
      let latency := u64 (now - start_time) in
      update_stats true sent latency ;;
      ret (sent =? Z.of_nat (length frame)).

(** [int FastComms::receive_packet(std::vector<uint8_t>& buffer, size_t max_size)];
    the buffer is passed in and handed back. *)
Definition receive_packet (buffer : list byte) (max_size : nat)
  : M (Z * list byte) :=
  self <- this ;;
  if negb (initialized_ self) || (socket_fd_ self <? 0) then ret (-1, buffer)
  else
    let buffer := resize buffer max_size in
    r <- sys (sys_recv (socket_fd_ self) max_size) ;;
    let received := ret_val r in
    if received <? 0 then
      if (errno r =? EAGAIN) || (errno r =? EWOULDBLOCK) then
        ret (0, buffer)
      else
        count_error ;;
        ret (-1, buffer)
    else
      let buffer := overwrite (firstn (Z.to_nat received) (out_bytes r)) buffer in
      let buffer := resize buffer (Z.to_nat received) in
      update_stats false received 0 ;;
      ret (to_int received, buffer).

(** The default value of [max_size]. *)
Definition default_max_size : nat := 4096.

(** [CommResult FastComms::send_and_receive(request, response)] *)
Definition send_and_receive (request response : list byte)
  : M (CommResult * list byte) :=
  let result := CommResult_new in
  start_time <- get_timestamp_us ;;
  sent <- send_packet request ;;
  if negb sent then
    ret (with_error_message result "Failed to send request", response)
  else
    rb <- receive_packet response default_max_size ;;
    let received := fst rb in
    let response := snd rb in
    if received <? 0 then
      ret (with_error_message result "Failed to receive response", response)
    else if received =? 0 then
      ret (with_error_message result "Response timeout", response)
    else
      now <- get_timestamp_us ;;
      ret (mkCommResult true response (u64 (now - start_time))
                        (error_message result),
           response).

(** [int FastComms::burst_send(packets)] with the running [sent_count], an
    [int]: [sent_count++] is taken in 32 bits (it cannot overflow on fewer
    than [2 ^ 31] packets; beyond that C++ leaves it undefined). *)
Fixpoint burst_loop (packets : list (list byte)) (sent_count : Z) : M Z :=
  match packets with
  | [] => ret sent_count
  | packet :: rest =>
      sent <- send_packet packet ;;
      burst_loop rest (if sent then to_int (sent_count + 1) else sent_count)
  end.

Definition burst_send (packets : list (list byte)) : M Z :=
  burst_loop packets 0.

(** [int64_t FastComms::measure_latency(payload)] *)
Definition measure_latency (payload : list byte) : M Z :=
  rr <- send_and_receive payload [] ;;
  let result := fst rr in
  if success result then ret (to_int64 (latency_us result)) else ret (-1).

(** The [while] loop of [stress_test]: the clock is read and compared with
    [end_time] before every send.  [turns] bounds the number of turns;
    [None] means the bound was reached with the loop still running. *)
Fixpoint stress_loop (turns : nat) (end_time : Z) (test_packet : list byte)
    (packet_size : nat) (test_stats : PacketStats) : M (option PacketStats) :=
  match turns with
  | O => ret None
  | S turns' =>
      now <- get_timestamp_us ;;
      if now <? end_time then
        sent <- send_packet test_packet ;;
        let test_stats :=
          if sent then count_sent test_stats (Z.of_nat packet_size)
          else count_failed test_stats in
        stress_loop turns' end_time test_packet packet_size test_stats
      else ret (Some test_stats)
  end.

(** The throughput printed by [stress_test]:
    [time_sec = total_time_us / 1000000.0;]
    [mbps = (bytes_sent * 8.0) / (time_sec * 1000000.0);] *)
Definition stress_mbps (bytes total_time_us : Z) : float :=
  let time_sec := (double_of_u64 total_time_us / 1000000)%float in
  (double_of_u64 bytes * 8 / (time_sec * 1000000))%float.

(** [PacketStats FastComms::stress_test(uint32_t duration_ms, size_t packet_size)] *)
Definition stress_test (turns : nat) (duration_ms : Z) (packet_size : nat)
  : M (option PacketStats) :=
  let test_stats := PacketStats_new in
  let test_packet := repeat xaa packet_size in
  start_time <- get_timestamp_us ;;
  let end_time := u64 (start_time + u32 (duration_ms * 1000)) in
  done <- stress_loop turns end_time test_packet packet_size test_stats ;;
  match done with
  | None => ret None
  | Some test_stats =>
      now <- get_timestamp_us ;;
      let total_time_us := u64 (now - start_time) in
      (if 0 <? total_time_us then
         print (cout_stress_test (packets_sent test_stats)
                  (stress_mbps (bytes_sent test_stats) total_time_us))
       else ret tt) ;;
      ret (Some test_stats)
  end.

(** [PacketStats FastComms::get_statistics() const] *)
Definition get_statistics : M PacketStats :=
  self <- this ;; ret (stats_ self).

(** [void FastComms::reset_statistics()] *)
Definition reset_statistics : M unit := set_stats PacketStats_new.

(** [void FastComms::set_timeout(uint32_t timeout_ms)] *)
Definition set_timeout (timeout_ms : Z) : M unit :=
  set_timeout_ms timeout_ms ;;
  self <- this ;;
  if initialized_ self && (0 <=? socket_fd_ self) then
    let tv_sec := timeout_ms_ self / 1000 in
    let tv_usec := u32 (timeout_ms_ self mod 1000 * 1000) in
    sys (sys_setsockopt_rcvtimeo (socket_fd_ self) tv_sec tv_usec) ;;
    ret tt
  else ret tt.

(** [bool FastComms::is_ready() const] *)
Definition is_ready : M bool :=
  self <- this ;; ret (initialized_ self && (0 <=? socket_fd_ self)).

(** ** The Python surface ([bindings.cpp]) *)

(** [receive_packet(max_size)]: a fresh buffer, the pair [(result, buffer)]. *)
Definition py_receive_packet (max_size : nat) : M (Z * list byte) :=
  receive_packet [] max_size.

(** [send_and_receive(request)]: a fresh response buffer. *)
Definition py_send_and_receive (request : list byte) : M CommResult :=
  rr <- send_and_receive request [] ;; ret (fst rr).

(** [__enter__] and [__exit__]. *)
Definition py_enter : M unit := initialize ;; ret tt.
Definition py_exit : M unit := close.

(** ** Sequences of calls on one endpoint *)

Inductive op : Type :=
| op_initialize
| op_close
| op_send_packet (frame : list byte)
| op_receive_packet (max_size : nat)
| op_send_and_receive (request : list byte)
| op_burst_send (packets : list (list byte))
| op_measure_latency (payload : list byte)
| op_stress_test (duration_ms : Z) (packet_size : nat)
| op_get_statistics
| op_reset_statistics
| op_set_timeout (timeout_ms : Z)
| op_is_ready
| op_enter
| op_exit
| op_destroy.

(** One call; [false] when a stress test was cut short by [turns]. *)
Definition exec_op (turns : nat) (o : op) : M bool :=
  match o with
  | op_initialize => initialize ;; ret true
  | op_close => close ;; ret true
  | op_send_packet frame => send_packet frame ;; ret true
  | op_receive_packet max_size => py_receive_packet max_size ;; ret true
  | op_send_and_receive request => py_send_and_receive request ;; ret true
  | op_burst_send packets => burst_send packets ;; ret true
  | op_measure_latency payload => measure_latency payload ;; ret true
  | op_stress_test duration_ms packet_size =>
      done <- stress_test turns duration_ms packet_size ;;
      ret (match done with Some _ => true | None => false end)
  | op_get_statistics => get_statistics ;; ret true
  | op_reset_statistics => reset_statistics ;; ret true
  | op_set_timeout timeout_ms => set_timeout timeout_ms ;; ret true
  | op_is_ready => is_ready ;; ret true
  | op_enter => py_enter ;; ret true
  | op_exit => py_exit ;; ret true
  | op_destroy => destroy ;; ret true
  end.

(** A sequence of calls, from a given state; [None] when some stress test
    did not finish within [turns] turns. *)
Fixpoint run_ops (turns : nat) (ops : list op) (s : State) : option State :=
  match ops with
  | [] => Some s
  | o :: rest =>
      let r := exec_op turns o s in
      if fst r then run_ops turns rest (snd r) else None
  end.

End Endpoint.

(** ** Properties kept along a run *)

(** An action keeps the property [P] of the state. *)
Definition preserves {A : Type} (P : State -> Prop) (m : M A) : Prop :=
  forall s, P s -> P (snd (m s)).

(** Every frame that the call hands to [send_packet] satisfies [F]. *)
Definition op_frames (F : list byte -> Prop) (o : op) : Prop :=
  match o with
  | op_send_packet frame => F frame
  | op_send_and_receive request => F request
  | op_burst_send packets => Forall F packets
  | op_measure_latency payload => F payload
  | op_stress_test _ packet_size => F (repeat xaa packet_size)
  | _ => True
  end.

Definition is_reset (o : op) : bool :=
  match o with
  | op_reset_statistics => true
  | _ => false
  end.

(** The flag and the descriptor agree. *)
Definition handle_agrees (s : State) : Prop :=
  initialized_ (snd s) = true <-> 0 <= socket_fd_ (snd s).

(** The bytes moved by the call issued after [i] earlier ones: what [send]
    or [recv] returned, when that is not a failure. *)
Definition moved (host : Host) (i : nat) (call : syscall) : Z :=
  match call with
  | sys_send _ _ | sys_recv _ _ => Z.max 0 (ret_val (kernel host i call))
  | _ => 0
  end.

(** All the bytes moved by the calls of a log (latest call first). *)
Fixpoint traffic (host : Host) (log : list syscall) : Z :=
  match log with
  | [] => 0
  | call :: rest => moved host (length rest) call + traffic host rest
  end.

(** The call issued after [i] earlier ones is a [send] of which the kernel
    accepted more than one byte. *)
Definition wide (host : Host) (i : nat) (call : syscall) : bool :=
  match call with
  | sys_send _ _ => 2 <=? ret_val (kernel host i call)
  | _ => false
  end.

(** Some call of the log issued after at least [n] earlier ones is wide. *)
Fixpoint wide_since (host : Host) (n : nat) (log : list syscall) : bool :=
  match log with
  | [] => false
  | call :: rest =>
      ((n <=? length rest)%nat && wide host (length rest) call)
      || wide_since host n rest
  end.

(** The kernel, when it does not fail, moves at least one byte: it never
    accepts zero bytes of a non-empty frame, and [recv] never delivers
    zero bytes. *)
Definition moves_bytes (host : Host) : Prop :=
  (forall i fd frame,
      frame <> [] ->
      ret_val (kernel host i (sys_send fd frame)) < 0 \/
      1 <= ret_val (kernel host i (sys_send fd frame))) /\
  (forall i fd max_size,
      ret_val (kernel host i (sys_recv fd max_size)) < 0 \/
      1 <= ret_val (kernel host i (sys_recv fd max_size))).

(** The counters are consistent with the log: packets do not outnumber
    bytes, and the bytes counted were moved by the kernel. *)
Definition counters_ok (host : Host) (s : State) : Prop :=
  let st := stats_ (snd s) in
  0 <= packets_sent st <= bytes_sent st /\
  0 <= packets_received st <= bytes_received st /\
  bytes_sent st + bytes_received st <= traffic host (calls (fst s)).

(** The invariant of the counters, as long as fewer than [2 ^ 64] bytes
    have been moved in all.  With a mark [n] on the log (a point after the
    last reset of the statistics), a wide [send] after the mark makes the
    bytes sent exceed the packets sent. *)
Definition counters_inv (host : Host) (mark : option nat) (s : State) : Prop :=
  traffic host (calls (fst s)) < 2 ^ 64 ->
  counters_ok host s /\
  (forall n, mark = Some n ->
             wide_since host n (calls (fst s)) = true ->
             packets_sent (stats_ (snd s)) < bytes_sent (stats_ (snd s))).

(** The world before anything has happened. *)
Definition World_new : World := mkWorld O [] [].

(** ** Concrete inputs used by the examples *)

(** The four bytes [00 01 F2 03] of the checksum example. *)
Definition checksum_sample : list byte := [x00; x01; xf2; x03]%byte.

(** 131076 bytes [FF]: 65538 words [0xFFFF], whose sum passes [2 ^ 32]. *)
Definition long_ones : list byte := repeat xff (Z.to_nat 131076).

(** A host whose clock advances by ten microseconds per reading (over the
    first million readings), where every set-up call succeeds, [socket] returns descriptor 3, [send]
    answers [send_ret frame] and [recv] answers [recv_reply]. *)
Definition make_host (send_ret : list byte -> Z) (recv_reply : reply) : Host :=
  mkHost
    (fun i => 1000000 + 10 * Z.min (Z.of_nat i) 1000000)
    (fun _ call =>
       match call with
       | sys_socket => mkReply 3 0 0 []
       | sys_ioctl_ifindex _ _ => mkReply 0 0 2 []
       | sys_send _ frame => mkReply (send_ret frame) 0 0 []
       | sys_recv _ _ => recv_reply
       | _ => mkReply 0 0 0 []
       end).

Definition ping : list byte := [x50; x49; x4e; x47]%byte.

(** The kernel takes whole frames and delivers the four bytes "PING". *)
Definition echo_host : Host :=
  make_host (fun frame => Z.of_nat (length frame)) (mkReply 4 0 0 ping).

(** The kernel takes all but the last byte of every frame. *)
Definition short_write_host : Host :=
  make_host (fun frame => Z.of_nat (length frame) - 1) (mkReply 4 0 0 ping).

(** No frame is pending: [recv] fails with [EAGAIN]. *)
Definition would_block_host : Host :=
  make_host (fun frame => Z.of_nat (length frame)) (mkReply (-1) EAGAIN 0 []).

(** [recv] fails with [ENETDOWN] (100). *)
Definition net_down_host : Host :=
  make_host (fun frame => Z.of_nat (length frame)) (mkReply (-1) 100 0 []).

(** [recv] succeeds with no byte, as it does when [max_size] is 0. *)
Definition zero_read_host : Host :=
  make_host (fun frame => Z.of_nat (length frame)) (mkReply 0 0 0 []).

(** An endpoint on "eth0" with the default timeout, and the same opened. *)
Definition eth0_closed : State := (World_new, FastComms_new "eth0" 1000).

Definition eth0_open (host : Host) : State := snd (initialize host eth0_closed).

(** A few calls on one endpoint, ending with the endpoint open. *)
Definition sample_ops : list op :=
  [op_initialize; op_send_packet ping; op_receive_packet 16;
   op_stress_test 1 2; op_set_timeout 50; op_is_ready].

(** A one-byte frame. *)
Definition one_byte : list byte := [xaa].

(** Calls up to a reset of the statistics, and calls after it. *)
Definition ops_before_reset : list op :=
  [op_initialize; op_send_packet one_byte; op_reset_statistics].

Definition ops_after_reset : list op :=
  [op_send_packet ping; op_receive_packet 16; op_burst_send [one_byte; ping]].

(** ** Further notions used to state properties of the code *)

(** The byte of a value in [0 .. 255]. *)
Definition byte_of_Z (z : Z) : byte :=
  match Byte.of_N (Z.to_N z) with
  | Some b => b
  | None => x00
  end.

(** The two bytes, high then low, of a 16-bit value. *)
Definition be_bytes (v : Z) : list byte :=
  [byte_of_Z (v / 256); byte_of_Z (v mod 256)].

(** Take one occurrence of a descriptor out of a list; [None] if there is
    none. *)
Fixpoint remove_one (fd : Z) (fds : list Z) : option (list Z) :=
  match fds with
  | [] => None
  | x :: rest =>
      if x =? fd then Some rest
      else match remove_one fd rest with
           | Some rest' => Some (x :: rest')
           | None => None
           end
  end.

(** The descriptors obtained from [socket] and not closed since, after the
    calls of a log (latest call first); [None] if some [::close] was given
    a descriptor that was not among them. *)
Fixpoint live (host : Host) (log : list syscall) : option (list Z) :=
  match log with
  | [] => Some []
  | call :: rest =>
      match live host rest with
      | None => None
      | Some fds =>
          match call with
          | sys_socket =>
              let fd := ret_val (kernel host (length rest) call) in
              if fd <? 0 then Some fds else Some (fd :: fds)
          | sys_close fd => remove_one fd fds
          | _ => Some fds
          end
      end
  end.

(** The descriptor the object holds, if any. *)
Definition held (c : FastComms) : list Z :=
  if 0 <=? socket_fd_ c then [socket_fd_ c] else [].

(** The object accounts for every live descriptor. *)
Definition handle_owned (host : Host) (s : State) : Prop :=
  handle_agrees s /\ live host (calls (fst s)) = Some (held (snd s)).

(** The receive timeout last handed to the kernel: descriptor, seconds,
    microseconds. *)
Fixpoint last_rcvtimeo (log : list syscall) : option (Z * Z * Z) :=
  match log with
  | [] => None
  | sys_setsockopt_rcvtimeo fd tv_sec tv_usec :: _ => Some (fd, tv_sec, tv_usec)
  | _ :: rest => last_rcvtimeo rest
  end.

(** While the endpoint is open, the timeout last handed to the kernel is
    the stored one, on the descriptor held. *)
Definition timeout_in_force (s : State) : Prop :=
  is_open (snd s) ->
  last_rcvtimeo (calls (fst s)) =
  Some (socket_fd_ (snd s), timeout_ms_ (snd s) / 1000,
        u32 (timeout_ms_ (snd s) mod 1000 * 1000)).

(** A host on which the interface does not exist: [socket] succeeds with
    descriptor 3 and [ioctl(SIOCGIFINDEX)] fails. *)
Definition no_interface_host : Host :=
  mkHost
    (fun i => 1000000 + 10 * Z.min (Z.of_nat i) 1000000)
    (fun _ call =>
       match call with
       | sys_socket => mkReply 3 0 0 []
       | sys_ioctl_ifindex _ _ => mkReply (-1) 19 0 []
       | _ => mkReply 0 0 0 []
       end).


(** What the statistics returned by [stress_test] satisfy: the bytes are
    the packets times the packet size (in 64 bits), nothing is received
    and no latency is averaged. *)
Definition local_ok (packet_size : nat) (st : PacketStats) : Prop :=
  bytes_sent st = u64 (packets_sent st * Z.of_nat packet_size) /\
  packets_received st = 0 /\ bytes_received st = 0 /\
  avg_latency_us st = avg_latency_us PacketStats_new.

(** [send] always fails. *)
Definition net_down_sends_host : Host :=
  make_host (fun _ => -1) (mkReply (-1) 100 0 []).

(** What one call contributes to each counter, by the kernel's reply. *)
Definition sent_ok (host : Host) (i : nat) (call : syscall) : Z :=
  match call with
  | sys_send _ _ => if ret_val (kernel host i call) <? 0 then 0 else 1
  | _ => 0
  end.

Definition sent_bytes (host : Host) (i : nat) (call : syscall) : Z :=
  match call with
  | sys_send _ _ => Z.max 0 (ret_val (kernel host i call))
  | _ => 0
  end.

Definition received_ok (host : Host) (i : nat) (call : syscall) : Z :=
  match call with
  | sys_recv _ _ => if ret_val (kernel host i call) <? 0 then 0 else 1
  | _ => 0
  end.

Definition received_bytes (host : Host) (i : nat) (call : syscall) : Z :=
  match call with
  | sys_recv _ _ => Z.max 0 (ret_val (kernel host i call))
  | _ => 0
  end.

(** A kernel failure: a [send] that fails, or a [recv] that fails for
    another reason than [EAGAIN] / [EWOULDBLOCK]. *)
Definition failed (host : Host) (i : nat) (call : syscall) : Z :=
  match call with
  | sys_send _ _ => if ret_val (kernel host i call) <? 0 then 1 else 0
  | sys_recv _ _ =>
      let r := kernel host i call in
      if ret_val r <? 0 then
        if (errno r =? EAGAIN) || (errno r =? EWOULDBLOCK) then 0 else 1
      else 0
  | _ => 0
  end.

(** The total of [f] over the calls of a log issued after at least [n]
    earlier ones. *)
Fixpoint tally (f : nat -> syscall -> Z) (n : nat) (log : list syscall) : Z :=
  match log with
  | [] => 0
  | call :: rest =>
      (if (n <=? length rest)%nat then f (length rest) call else 0)
      + tally f n rest
  end.

(** The five counters are the totals, in 64 bits, of what the kernel
    reported since the point [n] of the log. *)
Definition counters_exact (host : Host) (n : nat) (s : State) : Prop :=
  let st := stats_ (snd s) in
  let log := calls (fst s) in
  (n <= length log)%nat /\
  packets_sent st = u64 (tally (sent_ok host) n log) /\
  bytes_sent st = u64 (tally (sent_bytes host) n log) /\
  packets_received st = u64 (tally (received_ok host) n log) /\
  bytes_received st = u64 (tally (received_bytes host) n log) /\
  errors st = u64 (tally (failed host) n log).

(** Sends that succeed and receives that fail. *)
Definition mixed_ops : list op :=
  [op_send_packet ping; op_receive_packet 16; op_burst_send [one_byte; ping];
   op_measure_latency ping; op_set_timeout 20].


(** ** Bit-level facts *)

Lemma byte_val_range (b : byte) : 0 <= byte_val b < 256.
Proof.
  unfold byte_val. pose proof (Byte.to_N_bounded b) as Hb. lia.
Qed.

Lemma lxor_range (n a b : Z) :
  0 <= n -> 0 <= a < 2 ^ n -> 0 <= b < 2 ^ n -> 0 <= Z.lxor a b < 2 ^ n.
Proof.
  intros Hn Ha Hb.
  assert (Hnn : 0 <= Z.lxor a b) by (apply Z.lxor_nonneg; lia).
  split; [exact Hnn|].
  destruct (Z.eq_dec (Z.lxor a b) 0) as [E|E].
  - rewrite E. apply Z.pow_pos_nonneg; lia.
  - assert (0 < n).
    { destruct (Z.eq_dec n 0) as [->|]; [|lia].
      assert (a = 0) by (simpl in Ha; lia). assert (b = 0) by (simpl in Hb; lia).
      subst. simpl in E. lia. }
    apply Z.log2_lt_pow2; [lia|].
    eapply Z.le_lt_trans; [apply Z.log2_lxor; lia|].
    apply Z.max_lub_lt.
    + destruct (Z.eq_dec a 0) as [->|Na]; [simpl; lia|apply Z.log2_lt_pow2; lia].
    + destruct (Z.eq_dec b 0) as [->|Nb]; [simpl; lia|apply Z.log2_lt_pow2; lia].
Qed.

Lemma testbit_above (n a i : Z) :
  0 <= a < 2 ^ n -> n <= i -> Z.testbit a i = false.
Proof.
  intros Ha Hi.
  destruct (Z.eq_dec a 0) as [->|Na]; [apply Z.bits_0|].
  apply Z.bits_above_log2; [lia|].
  assert (0 <= n).
  { destruct (Z_lt_le_dec n 0) as [Hneg|]; [|lia].
    rewrite Z.pow_neg_r in Ha; lia. }
  assert (Z.log2 a < n) by (apply Z.log2_lt_pow2; lia).
  lia.
Qed.

Lemma u32_lnot (crc : Z) :
  0 <= crc < 2 ^ 32 -> u32 (Z.lnot crc) = Z.lxor crc 0xFFFFFFFF.
Proof.
  intros Hc. unfold u32. apply Z.bits_inj'. intros i Hi.
  rewrite Z.lxor_spec. change 0xFFFFFFFF with (Z.ones 32).
  destruct (Z_lt_le_dec i 32) as [Hlt|Hge].
  - rewrite Z.mod_pow2_bits_low, Z.lnot_spec, Z.ones_spec_low by lia.
    destruct (Z.testbit crc i); reflexivity.
  - rewrite Z.mod_pow2_bits_high, Z.ones_spec_high by lia.
    rewrite (testbit_above 32 crc i) by lia. reflexivity.
Qed.

Lemma split_low_byte (x : Z) :
  x = Z.lxor (Z.land x 0xFF) (Z.shiftl (Z.shiftr x 8) 8).
Proof.
  apply Z.bits_inj'. intros i Hi.
  rewrite Z.lxor_spec, Z.land_spec. change 0xFF with (Z.ones 8).
  destruct (Z_lt_le_dec i 8) as [Hlt|Hge].
  - rewrite Z.ones_spec_low, Z.shiftl_spec_low by lia.
    rewrite andb_true_r, xorb_false_r. reflexivity.
  - rewrite Z.ones_spec_high, Z.shiftl_spec, Z.shiftr_spec by lia.
    rewrite andb_false_r. simpl. f_equal. lia.
Qed.

(** ** CRC-32: the bit-serial loop against the table *)

Module CrcFacts.
Import PacketValidator Reference.

Lemma crc_shift_bit0 (x : Z) :
  crc_shift x = Z.lxor (Z.shiftr x 1) (poly_if (Z.testbit x 0)).
Proof.
  unfold crc_shift, poly_if.
  change 1 with (Z.ones 1) at 1. rewrite Z.land_ones by lia.
  change (2 ^ 1) with 2. rewrite <- Z.bit0_mod.
  destruct (Z.testbit x 0); simpl; [reflexivity|].
  rewrite Z.lxor_0_r. reflexivity.
Qed.

Lemma crc_shift_lxor (a b : Z) :
  crc_shift (Z.lxor a b) = Z.lxor (crc_shift a) (crc_shift b).
Proof.
  rewrite !crc_shift_bit0, Z.shiftr_lxor, Z.lxor_spec.
  apply Z.bits_inj'. intros i Hi. rewrite !Z.lxor_spec.
  destruct (Z.testbit a 0), (Z.testbit b 0); simpl;
    rewrite ?Z.bits_0;
    destruct (Z.testbit (Z.shiftr a 1) i), (Z.testbit (Z.shiftr b 1) i),
      (Z.testbit 0xEDB88320 i); reflexivity.
Qed.

Lemma crc_iter_lxor (n : nat) (a b : Z) :
  Nat.iter n crc_shift (Z.lxor a b) =
  Z.lxor (Nat.iter n crc_shift a) (Nat.iter n crc_shift b).
Proof.
  induction n as [|n IH]; simpl; [reflexivity|].
  rewrite IH. apply crc_shift_lxor.
Qed.

Lemma crc_iter_high (k : nat) (x : Z) :
  (forall i, 0 <= i < Z.of_nat k -> Z.testbit x i = false) ->
  Nat.iter k crc_shift x = Z.shiftr x (Z.of_nat k).
Proof.
  induction k as [|k IH]; intros Hlow.
  - simpl. symmetry. apply Z.shiftr_0_r.
  - rewrite Nat.iter_succ, IH by (intros i Hi; apply Hlow; lia).
    rewrite crc_shift_bit0, Z.shiftr_spec by lia.
    rewrite Z.add_0_l, Hlow by lia. unfold poly_if.
    rewrite Z.lxor_0_r, Z.shiftr_shiftr by lia.
    f_equal. lia.
Qed.

Lemma crc_iter_split (x : Z) :
  Nat.iter 8 crc_shift x =
  Z.lxor (Nat.iter 8 crc_shift (Z.land x 0xFF)) (Z.shiftr x 8).
Proof.
  rewrite (split_low_byte x) at 1. rewrite crc_iter_lxor. f_equal.
  rewrite crc_iter_high.
  - change (Z.of_nat 8) with 8. apply Z.bits_inj'. intros i Hi.
    rewrite !Z.shiftr_spec, Z.shiftl_spec by lia.
    rewrite Z.shiftr_spec by lia. f_equal. lia.
  - intros i Hi. apply Z.shiftl_spec_low. lia.
Qed.

Lemma crc_table_nth (i : Z) :
  0 <= i < 256 ->
  nth (Z.to_nat i) Reference.crc_table 0 = Nat.iter 8 crc_shift i.
Proof.
  intros Hi.
  pose (f := fun j : nat => Nat.iter 8 crc_shift (Z.of_nat j)).
  assert (E : Reference.crc_table = map f (seq 0 256))
    by (vm_compute; reflexivity).
  rewrite E.
  rewrite (nth_indep _ 0 (f 0%nat)) by (rewrite length_map, length_seq; lia).
  rewrite map_nth, seq_nth by lia.
  unfold f. rewrite Nat.add_0_l, Z2Nat.id by lia. reflexivity.
Qed.

Lemma crc_byte_table (crc : Z) (b : byte) :
  crc_byte crc b = Reference.crc32_step crc b.
Proof.
  unfold crc_byte, Reference.crc32_step.
  rewrite crc_iter_split. rewrite crc_table_nth.
  - f_equal. rewrite Z.shiftr_lxor.
    pose proof (byte_val_range b) as Hb.
    rewrite (Z.shiftr_div_pow2 (byte_val b)) by lia.
    rewrite (Z.div_small (byte_val b)) by (simpl; lia).
    apply Z.lxor_0_r.
  - change 0xFF with (Z.ones 8). rewrite Z.land_ones by lia.
    pose proof (Z.mod_pos_bound (Z.lxor crc (byte_val b)) (2 ^ 8)). lia.
Qed.

Lemma crc_shift_range (x : Z) :
  0 <= x < 2 ^ 32 -> 0 <= crc_shift x < 2 ^ 32.
Proof.
  intros Hx. rewrite crc_shift_bit0.
  apply lxor_range; [lia| |unfold poly_if; destruct (Z.testbit x 0); simpl; lia].
  rewrite Z.shiftr_div_pow2 by lia. change (2 ^ 1) with 2.
  pose proof (Z.div_pos x 2). 
  assert (x / 2 <= x) by (apply Z.div_le_upper_bound; lia). lia.
Qed.

Lemma crc_byte_range (crc : Z) (b : byte) :
  0 <= crc < 2 ^ 32 -> 0 <= crc_byte crc b < 2 ^ 32.
Proof.
  intros Hc. unfold crc_byte.
  assert (H0 : 0 <= Z.lxor crc (byte_val b) < 2 ^ 32).
  { apply lxor_range; [lia|exact Hc|]. pose proof (byte_val_range b). simpl; lia. }
  revert H0. generalize (Z.lxor crc (byte_val b)). intros x Hx.
  do 8 (apply crc_shift_range in Hx). exact Hx.
Qed.

Lemma crc_register_range (data : list byte) (crc : Z) :
  0 <= crc < 2 ^ 32 -> 0 <= fold_left crc_byte data crc < 2 ^ 32.
Proof.
  revert crc. induction data as [|b data IH]; intros crc Hc; simpl.
  - exact Hc.
  - apply IH, crc_byte_range, Hc.
Qed.

Lemma crc_register_table (data : list byte) (crc : Z) :
  fold_left crc_byte data crc = fold_left Reference.crc32_step data crc.
Proof.
  revert crc. induction data as [|b data IH]; intros crc; simpl.
  - reflexivity.
  - rewrite crc_byte_table. apply IH.
Qed.

End CrcFacts.

(** Entries of the table as published for CRC-32 (ITU-T V.42, Ethernet). *)
Example crc_table_entries :
  nth 0 Reference.crc_table 0 = 0x00000000 /\
  nth 1 Reference.crc_table 0 = 0x77073096 /\
  nth 2 Reference.crc_table 0 = 0xEE0E612C /\
  nth 128 Reference.crc_table 0 = 0xEDB88320 /\
  nth 255 Reference.crc_table 0 = 0x2D02EF8D.
Proof. repeat split. Qed.

(** C8. [calculate_crc32] is the reflected CRC-32 of polynomial
    [0xEDB88320] with initial register [0xFFFFFFFF] and final XOR
    [0xFFFFFFFF]: on every byte sequence it returns the value of the
    table-driven CRC-32 [Reference.crc32], a 32-bit value; the CRC of
    the empty sequence is [0x00000000] and the CRC of the ASCII digits
    "123456789" is [0xCBF43926]. *)
Theorem calculate_crc32_reflected :
  (forall data : list byte,
      PacketValidator.calculate_crc32 data = Reference.crc32 data /\
      0 <= PacketValidator.calculate_crc32 data < 2 ^ 32) /\
  PacketValidator.calculate_crc32 [] = 0x00000000 /\
  PacketValidator.calculate_crc32 digits_1_9 = 0xCBF43926.
Proof.
  split; [|split; vm_compute; reflexivity].
  intros data. unfold PacketValidator.calculate_crc32, Reference.crc32.
  pose proof (CrcFacts.crc_register_range data 0xFFFFFFFF ltac:(simpl; lia)) as Hr.
  split.
  - rewrite u32_lnot by exact Hr.
    rewrite CrcFacts.crc_register_table. reflexivity.
  - unfold u32. apply Z.mod_pos_bound. lia.
Qed.

(** ** The 16-bit checksum against the Internet checksum *)

Module ChecksumFacts.
Import PacketValidator Reference.

Lemma pairs_ind (P : list byte -> Prop) :
  P [] -> (forall b, P [b]) ->
  (forall hi lo rest, P rest -> P (hi :: lo :: rest)) ->
  forall data, P data.
Proof.
  intros H0 H1 H2 data.
  enough (P data /\ forall b, P (b :: data)) by tauto.
  induction data as [|b data [IHa IHb]]; split; auto.
Qed.

Lemma word_high (hi : byte) : u16 (Z.shiftl (byte_val hi) 8) = 256 * byte_val hi.
Proof.
  pose proof (byte_val_range hi) as Hb.
  rewrite Z.shiftl_mul_pow2 by lia. change (2 ^ 8) with 256.
  unfold u16. rewrite Z.mod_small; lia.
Qed.

Lemma word_both (hi lo : byte) :
  Z.lor (u16 (Z.shiftl (byte_val hi) 8)) (byte_val lo) =
  256 * byte_val hi + byte_val lo.
Proof.
  rewrite word_high.
  assert (D : Z.land (256 * byte_val hi) (byte_val lo) = 0).
  { apply Z.bits_inj'. intros i Hi. rewrite Z.land_spec, Z.bits_0.
    destruct (Z_lt_le_dec i 8) as [Hlt|Hge].
    - replace (256 * byte_val hi) with (Z.shiftl (byte_val hi) 8)
        by (rewrite Z.shiftl_mul_pow2; lia).
      rewrite Z.shiftl_spec_low by lia. reflexivity.
    - rewrite (testbit_above 8 (byte_val lo) i (byte_val_range lo)) by lia.
      apply andb_false_r. }
  rewrite <- (Z.lxor_lor _ _ D). symmetry. apply Z.add_nocarry_lxor, D.
Qed.

Lemma be_words_range (data : list byte) :
  Forall (fun w => 0 <= w <= 65535) (be_words data).
Proof.
  induction data as [|b|hi lo rest IH] using pairs_ind; cbn [be_words].
  - constructor.
  - pose proof (byte_val_range b). constructor; [lia|constructor].
  - pose proof (byte_val_range hi). pose proof (byte_val_range lo).
    constructor; [lia|exact IH].
Qed.

Lemma be_words_length (data : list byte) :
  (2 * length (be_words data) <= length data + 1)%nat.
Proof.
  induction data as [|b|hi lo rest IH] using pairs_ind; simpl in *; lia.
Qed.

Lemma wsum_range (ws : list Z) :
  Forall (fun w => 0 <= w <= 65535) ws ->
  0 <= wsum ws <= 65535 * Z.of_nat (length ws).
Proof.
  induction 1 as [|w ws Hw _ IH]; cbn [wsum fold_right length]; [simpl; lia|].
  fold (wsum ws). rewrite Nat2Z.inj_succ. lia.
Qed.

Lemma wsum_short (data : list byte) :
  Z.of_nat (length data) <= 131074 -> wsum (be_words data) < 2 ^ 32.
Proof.
  intros Hlen.
  pose proof (be_words_length data) as Hn.
  pose proof (wsum_range _ (be_words_range data)) as Hs.
  assert (Z.of_nat (length (be_words data)) <= 65537) by lia.
  change (2 ^ 32) with 4294967296. lia.
Qed.

Lemma checksum_loop_sum (data : list byte) (sum : Z) :
  0 <= sum < 2 ^ 32 ->
  checksum_loop data sum = u32 (sum + wsum (be_words data)).
Proof.
  revert sum.
  induction data as [|b|hi lo rest IH] using pairs_ind; intros sum Hs.
  - cbn [checksum_loop be_words wsum fold_right].
    rewrite Z.add_0_r. unfold u32. rewrite Z.mod_small; lia.
  - cbn [checksum_loop be_words wsum fold_right].
    rewrite word_high, Z.add_0_r. reflexivity.
  - cbn [checksum_loop be_words wsum fold_right].
    rewrite word_both, IH by (unfold u32; apply Z.mod_pos_bound; lia).
    unfold u32. rewrite Zplus_mod_idemp_l. f_equal. fold (wsum (be_words rest)). lia.
Qed.

Lemma fold_step_value (s : Z) :
  0 <= s < 2 ^ 32 ->
  u32 (Z.land s 0xFFFF + Z.shiftr s 16) = s mod 65536 + s / 65536 /\
  Z.shiftr s 16 = s / 65536.
Proof.
  intros Hs. change 0xFFFF with (Z.ones 16).
  rewrite Z.land_ones, Z.shiftr_div_pow2 by lia.
  change (2 ^ 16) with 65536. split; [|reflexivity].
  unfold u32. apply Z.mod_small. change (2 ^ 32) with 4294967296 in *.
  Z.div_mod_to_equations. lia.
Qed.

Lemma fold_carries_norm (turns : nat) (s : Z) :
  0 <= s < 2 ^ 32 -> fold_carries (S (S (S turns))) s = ones_norm s.
Proof.
  intros Hs. change (2 ^ 32) with 4294967296 in Hs.
  assert (R : forall x, 0 <= x < 4294967296 -> 0 <= x mod 65536 + x / 65536 < 131071)
    by (intros x Hx; Z.div_mod_to_equations; lia).
  cbn [fold_carries].
  destruct (fold_step_value s Hs) as [E1 D1]. rewrite E1, D1.
  set (s1 := s mod 65536 + s / 65536) in *.
  pose proof (R s Hs) as Hs1. fold s1 in Hs1.
  destruct (fold_step_value s1 ltac:(change (2 ^ 32) with 4294967296; lia)) as [E2 D2].
  rewrite E2, D2.
  set (s2 := s1 mod 65536 + s1 / 65536) in *.
  assert (Hs2 : 0 <= s2 < 65536) by (subst s2; Z.div_mod_to_equations; lia).
  destruct (fold_step_value s2 ltac:(change (2 ^ 32) with 4294967296; lia)) as [_ D3].
  rewrite D3. rewrite (Z.div_small s2) by lia. simpl (0 =? 0).
  unfold ones_norm.
  destruct (Z.eqb_spec (s / 65536) 0) as [Q1|Q1];
    [|destruct (Z.eqb_spec (s1 / 65536) 0) as [Q2|Q2]];
    destruct (Z.eqb_spec s 0) as [Z0|Z0]; subst s2 s1;
    Z.div_mod_to_equations; lia.
Qed.

Lemma ones_norm_range (z : Z) : 0 <= ones_norm z <= 65535.
Proof.
  unfold ones_norm. destruct (z =? 0); [lia|].
  pose proof (Z.mod_pos_bound (z - 1) 65535). lia.
Qed.

Lemma ones_add_norm (x w : Z) :
  0 <= x -> 0 <= w <= 65535 ->
  ones_add (ones_norm x) w = ones_norm (x + w).
Proof.
  intros Hx Hw. unfold ones_add, ones_norm. change (2 ^ 16) with 65536.
  destruct (Z.eqb_spec x 0) as [X0|X0];
    destruct (Z.eqb_spec (x + w) 0) as [S0|S0];
    match goal with |- context [?a <? ?b] => destruct (Z.ltb_spec a b) end;
    Z.div_mod_to_equations; lia.
Qed.

Lemma ones_sum_norm (ws : list Z) (x : Z) :
  0 <= x -> Forall (fun w => 0 <= w <= 65535) ws ->
  fold_left ones_add ws (ones_norm x) = ones_norm (x + wsum ws).
Proof.
  intros Hx Hws. revert x Hx.
  induction Hws as [|w ws Hw _ IH]; intros x Hx; cbn [fold_left wsum fold_right].
  - rewrite Z.add_0_r. reflexivity.
  - fold (wsum ws). rewrite ones_add_norm, IH by lia. f_equal. lia.
Qed.

(** The folding loop reaches its exit test within the turns it is given. *)
Lemma fold_carries_exits (s : Z) :
  0 <= s < 2 ^ 32 -> Z.shiftr (fold_carries 32 s) 16 = 0.
Proof.
  intros Hs. rewrite (fold_carries_norm 29 s Hs).
  pose proof (ones_norm_range s).
  rewrite Z.shiftr_div_pow2 by lia. apply Z.div_small. simpl; lia.
Qed.

Lemma checksum_no_overflow (data : list byte) :
  wsum (be_words data) < 2 ^ 32 ->
  calculate_simple_checksum data = internet_checksum data.
Proof.
  intros Hsum. unfold calculate_simple_checksum, internet_checksum.
  pose proof (wsum_range _ (be_words_range data)) as [Hlo _].
  rewrite checksum_loop_sum by (simpl; lia).
  rewrite Z.add_0_l. unfold u32 at 1. rewrite Z.mod_small by lia.
  rewrite (fold_carries_norm 29) by lia.
  change (fold_left ones_add (be_words data) 0)
    with (fold_left ones_add (be_words data) (ones_norm 0)).
  rewrite ones_sum_norm by (try lia; apply be_words_range).
  rewrite Z.add_0_l.
  pose proof (ones_norm_range (wsum (be_words data))) as Hn.
  change 0xFFFF with (Z.ones 16).
  rewrite Z.land_ones by lia. unfold u16. rewrite Z.mod_mod by lia.
  unfold Z.lnot. change (Z.ones 16) with 65535. change (2 ^ 16) with 65536.
  Z.div_mod_to_equations. lia.
Qed.

End ChecksumFacts.

Example simple_checksum_sample :
  PacketValidator.calculate_simple_checksum checksum_sample = 0x0DFB.
Proof. vm_compute. reflexivity. Qed.

(** Counterexample to C9, on a long input: the [uint32_t] accumulator of
    [calculate_simple_checksum] wraps on 131076 bytes [FF], and the result
    [0x0001] is not the Internet checksum [0x0000] of these bytes. *)
Lemma simple_checksum_wraps :
  PacketValidator.calculate_simple_checksum long_ones = 0x0001 /\
  Reference.internet_checksum long_ones = 0x0000 /\
  ~ (forall data : list byte,
        PacketValidator.calculate_simple_checksum data =
        Reference.internet_checksum data).
Proof.
  assert (Hc : PacketValidator.calculate_simple_checksum long_ones = 0x0001)
    by (vm_compute; reflexivity).
  assert (Hi : Reference.internet_checksum long_ones = 0x0000)
    by (vm_compute; reflexivity).
  split; [exact Hc|]. split; [exact Hi|].
  intros Hall. specialize (Hall long_ones). rewrite Hc, Hi in Hall. discriminate.
Qed.

(** C9, amended.  For every byte sequence whose big-endian 16-bit words
    sum to less than [2 ^ 32], in particular for every sequence of at
    most 131074 bytes, [calculate_simple_checksum] is the Internet
    checksum (ones-complement sum of the big-endian words, an odd last
    byte taken as a high half, complemented, 16 bits); the checksum of
    the empty sequence is [0xFFFF]. *)
Theorem simple_checksum_internet (data : list byte) :
  Z.of_nat (length data) <= 131074 \/ Reference.wsum (Reference.be_words data) < 2 ^ 32 ->
  PacketValidator.calculate_simple_checksum data = Reference.internet_checksum data /\
  0 <= PacketValidator.calculate_simple_checksum data < 2 ^ 16 /\
  PacketValidator.calculate_simple_checksum [] = 0xFFFF.
Proof.
  intros Hsize.
  assert (Hsum : Reference.wsum (Reference.be_words data) < 2 ^ 32).
  { destruct Hsize as [Hlen|Hsum]; [apply ChecksumFacts.wsum_short, Hlen|exact Hsum]. }
  split; [apply ChecksumFacts.checksum_no_overflow, Hsum|].
  split; [|vm_compute; reflexivity].
  unfold PacketValidator.calculate_simple_checksum, u16.
  apply Z.mod_pos_bound. lia.
Qed.

Lemma simple_checksum_internet_witness :
  PacketValidator.calculate_simple_checksum checksum_sample =
  Reference.internet_checksum checksum_sample /\
  0 <= PacketValidator.calculate_simple_checksum checksum_sample < 2 ^ 16 /\
  PacketValidator.calculate_simple_checksum [] = 0xFFFF.
Proof.
  apply (simple_checksum_internet checksum_sample).
  left. vm_compute. discriminate.
Defined.

(** ** The endpoint: what a single call does *)

Ltac run_m :=
  cbv beta iota zeta delta
    [bind ret this set_socket_fd set_initialized set_timeout_ms set_stats
     sys print get_timestamp_us fst snd];
  cbn [reads calls console length].

(** Run the first action of a sequence on the state at hand. *)
Ltac step_bind :=
  match goal with
  | |- context [bind ?m ?k ?s] =>
      change (bind m k s) with (k (fst (m s)) (snd (m s))); cbv beta
  end.

Ltac step :=
  step_bind;
  unfold this, ret, set_socket_fd, set_initialized, set_timeout_ms, set_stats,
    sys, print, get_timestamp_us;
  cbn [fst snd reads calls console length].

Section Calls.

Variable host : Host.

Lemma not_open_test (c : FastComms) :
  negb (initialized_ c) || (socket_fd_ c <? 0) = false <-> is_open c.
Proof.
  unfold is_open. destruct (initialized_ c); simpl.
  - rewrite Z.ltb_ge. intuition.
  - intuition discriminate.
Qed.

Lemma open_test (c : FastComms) :
  initialized_ c && (0 <=? socket_fd_ c) = true <-> is_open c.
Proof.
  unfold is_open. rewrite andb_true_iff, Z.leb_le. reflexivity.
Qed.

(** [send_packet] on an endpoint that is not open: nothing happens. *)
Lemma send_packet_closed (w : World) (c : FastComms) (frame : list byte) :
  ~ is_open c -> send_packet host frame (w, c) = (false, (w, c)).
Proof.
  intros Hc. unfold send_packet. run_m.
  destruct (negb (initialized_ c) || (socket_fd_ c <? 0)) eqn:E; [reflexivity|].
  apply not_open_test in E. contradiction.
Qed.

(** [send_packet] on an open endpoint, in terms of the two clock readings
    and of the kernel's reply to [send]. *)
Lemma send_packet_open (w : World) (c : FastComms) (frame : list byte) :
  is_open c ->
  let call := sys_send (socket_fd_ c) frame in
  let sent := ret_val (kernel host (length (calls w)) call) in
  let start_time := u64 (clock host (reads w)) in
  let now := u64 (clock host (S (reads w))) in
  send_packet host frame (w, c) =
  if sent <? 0 then
    (false,
     (mkWorld (S (reads w)) (call :: calls w) (console w),
      with_stats c (count_failed (stats_ c))))
  else
    (sent =? Z.of_nat (length frame),
     (mkWorld (S (S (reads w))) (call :: calls w) (console w),
      with_stats c (smooth_latency (count_sent (stats_ c) sent)
                                   (u64 (now - start_time))))).
Proof.
  intros Ho. apply not_open_test in Ho.
  unfold send_packet. run_m. rewrite Ho.
  destruct (ret_val _ <? 0); reflexivity.
Qed.

(** [receive_packet] on an endpoint that is not open. *)
Lemma receive_packet_closed (w : World) (c : FastComms)
    (buffer : list byte) (max_size : nat) :
  ~ is_open c ->
  receive_packet host buffer max_size (w, c) = ((-1, buffer), (w, c)).
Proof.
  intros Hc. unfold receive_packet. run_m.
  destruct (negb (initialized_ c) || (socket_fd_ c <? 0)) eqn:E; [reflexivity|].
  apply not_open_test in E. contradiction.
Qed.

(** [receive_packet] on an open endpoint, in terms of the kernel's reply
    to [recv]. *)
Lemma receive_packet_open (w : World) (c : FastComms)
    (buffer : list byte) (max_size : nat) :
  is_open c ->
  let call := sys_recv (socket_fd_ c) max_size in
  let r := kernel host (length (calls w)) call in
  let w' := mkWorld (reads w) (call :: calls w) (console w) in
  receive_packet host buffer max_size (w, c) =
  if ret_val r <? 0 then
    if (errno r =? EAGAIN) || (errno r =? EWOULDBLOCK) then
      ((0, resize buffer max_size), (w', c))
    else
      ((-1, resize buffer max_size),
       (w', with_stats c (count_failed (stats_ c))))
  else
    ((to_int (ret_val r),
      resize (overwrite (firstn (Z.to_nat (ret_val r)) (out_bytes r))
                        (resize buffer max_size))
             (Z.to_nat (ret_val r))),
     (w', with_stats c (smooth_latency (count_received (stats_ c) (ret_val r)) 0))).
Proof.
  intros Ho. apply not_open_test in Ho.
  unfold receive_packet. run_m. rewrite Ho.
  destruct (ret_val _ <? 0); [|reflexivity].
  destruct ((errno _ =? EAGAIN) || (errno _ =? EWOULDBLOCK)); reflexivity.
Qed.

(** [initialize] on an endpoint whose flag is set. *)
Lemma initialize_again (w : World) (c : FastComms) :
  initialized_ c = true -> initialize host (w, c) = (true, (w, c)).
Proof.
  intros Hi. unfold initialize. run_m. rewrite Hi. reflexivity.
Qed.

Lemma create_raw_socket_run (w : World) (c : FastComms) :
  let sockfd := ret_val (kernel host (length (calls w)) sys_socket) in
  create_raw_socket host (w, c) =
  (if sockfd <? 0 then -1 else sockfd,
   (mkWorld (reads w) (sys_socket :: calls w)
      (if sockfd <? 0 then
         cerr_line "Failed to create raw socket (need root privileges)"
           :: console w
       else console w), c)).
Proof.
  cbv zeta. unfold create_raw_socket. run_m. destruct (_ <? 0); reflexivity.
Qed.

Lemma bind_to_interface_run (w : World) (c : FastComms) :
  let ioctl := sys_ioctl_ifindex (socket_fd_ c)
                 (strncpy (interface_name_ c) (IFNAMSIZ - 1)) in
  let r_ioctl := kernel host (length (calls w)) ioctl in
  let bnd := sys_bind (socket_fd_ c) (out_ifindex r_ioctl) in
  let r_bind := kernel host (S (length (calls w))) bnd in
  bind_to_interface host (w, c) =
  if ret_val r_ioctl <? 0 then
    (-1,
     (mkWorld (reads w) (ioctl :: calls w)
        (cerr_line (String.append "Failed to get interface index for "
                                  (interface_name_ c)) :: console w), c))
  else
    (if ret_val r_bind <? 0 then -1 else 0,
     (mkWorld (reads w) (bnd :: ioctl :: calls w)
        (if ret_val r_bind <? 0 then
           cerr_line (String.append "Failed to bind to interface "
                                    (interface_name_ c)) :: console w
         else console w), c)).
Proof.
  cbv zeta. unfold bind_to_interface. run_m.
  destruct (ret_val (kernel host (length (calls w)) _) <? 0); [reflexivity|].
  destruct (_ <? 0); reflexivity.
Qed.

(** [initialize] on an endpoint whose flag is clear, in terms of the
    kernel's replies to [socket], [ioctl] and [bind]. *)
Lemma initialize_closed (w : World) (c : FastComms) :
  initialized_ c = false ->
  let n := length (calls w) in
  let sockfd := ret_val (kernel host n sys_socket) in
  let ioctl := sys_ioctl_ifindex sockfd
                 (strncpy (interface_name_ c) (IFNAMSIZ - 1)) in
  let r_ioctl := kernel host (S n) ioctl in
  let bnd := sys_bind sockfd (out_ifindex r_ioctl) in
  let r_bind := kernel host (S (S n)) bnd in
  let opt := sys_setsockopt_rcvtimeo sockfd (timeout_ms_ c / 1000)
               (u32 (timeout_ms_ c mod 1000 * 1000)) in
  let r_opt := kernel host (S (S (S n))) opt in
  initialize host (w, c) =
  if sockfd <? 0 then
    (false,
     (mkWorld (reads w) (sys_socket :: calls w)
        (cerr_line "Failed to create raw socket (need root privileges)"
           :: console w),
      with_socket_fd c (-1)))
  else if ret_val r_ioctl <? 0 then
    (false,
     (mkWorld (reads w) (sys_close sockfd :: ioctl :: sys_socket :: calls w)
        (cerr_line (String.append "Failed to get interface index for "
                                  (interface_name_ c)) :: console w),
      with_socket_fd (with_socket_fd c sockfd) (-1)))
  else if ret_val r_bind <? 0 then
    (false,
     (mkWorld (reads w)
              (sys_close sockfd :: bnd :: ioctl :: sys_socket :: calls w)
        (cerr_line (String.append "Failed to bind to interface "
                                  (interface_name_ c)) :: console w),
      with_socket_fd (with_socket_fd c sockfd) (-1)))
  else
    (true,
     (mkWorld (reads w) (opt :: bnd :: ioctl :: sys_socket :: calls w)
        (if ret_val r_opt <? 0 then
           cerr_line "Warning: Failed to set receive timeout" :: console w
         else console w),
      with_initialized (with_socket_fd c sockfd) true)).
Proof.
  intros Hi. cbv zeta. unfold initialize.
  step. rewrite Hi.
  step_bind. rewrite create_raw_socket_run. cbv zeta. cbn [fst snd].
  destruct (Z.ltb_spec (ret_val (kernel host (length (calls w)) sys_socket)) 0)
    as [H1|H1].
  - step. reflexivity.
  - step.
    destruct (Z.ltb_spec (ret_val (kernel host (length (calls w)) sys_socket)) 0)
      as [H1'|_]; [lia|].
    step_bind. rewrite bind_to_interface_run. cbv zeta.
    cbn [calls reads console length socket_fd_ interface_name_ with_socket_fd].
    destruct (ret_val (kernel host (S (length (calls w))) _) <? 0).
    + cbn [fst snd]. run_m. reflexivity.
    + cbn [fst snd].
      destruct (ret_val (kernel host (S (S (length (calls w)))) _) <? 0);
        run_m; [reflexivity|].
      change (0 <? 0) with false. cbv beta iota.
      cbn [fst snd reads calls console length].
      destruct (ret_val (kernel host (S (S (S (length (calls w))))) _) <? 0);
        reflexivity.
Qed.

(** [close]. *)
Lemma close_run (w : World) (c : FastComms) :
  close host (w, c) =
  (tt,
   if 0 <=? socket_fd_ c then
     (mkWorld (reads w) (sys_close (socket_fd_ c) :: calls w) (console w),
      with_initialized (with_socket_fd c (-1)) false)
   else (w, with_initialized c false)).
Proof.
  unfold close. run_m. destruct (0 <=? socket_fd_ c); run_m; [reflexivity|].
  destruct w; reflexivity.
Qed.

(** [set_timeout]. *)
Lemma set_timeout_run (w : World) (c : FastComms) (t : Z) :
  set_timeout host t (w, c) =
  (tt,
   if initialized_ c && (0 <=? socket_fd_ c) then
     (mkWorld (reads w)
              (sys_setsockopt_rcvtimeo (socket_fd_ c) (t / 1000)
                                       (u32 (t mod 1000 * 1000)) :: calls w)
              (console w),
      with_timeout_ms c t)
   else (w, with_timeout_ms c t)).
Proof.
  unfold set_timeout. run_m. cbn [initialized_ socket_fd_ with_timeout_ms].
  destruct (initialized_ c && (0 <=? socket_fd_ c)); run_m; reflexivity.
Qed.

End Calls.

(** ** Sending *)

Lemma u64_succ_neq (x : Z) : u64 (x + 1) <> x.
Proof.
  unfold u64. intros E.
  pose proof (Z.mod_pos_bound (x + 1) (2 ^ 64) ltac:(lia)) as Hb.
  assert (Hx : x mod 2 ^ 64 = x) by (apply Z.mod_small; lia).
  rewrite <- Zplus_mod_idemp_l, Hx in E.
  destruct (Z.eq_dec x (2 ^ 64 - 1)) as [->|Hn].
  - vm_compute in E. discriminate.
  - rewrite Z.mod_small in E by lia. lia.
Qed.

Lemma u64_add_cancel (b x y : Z) :
  0 <= x < 2 ^ 64 -> 0 <= y < 2 ^ 64 -> u64 (b + x) = u64 (b + y) -> x = y.
Proof.
  unfold u64. intros Hx Hy E.
  assert (D : (x - y) mod 2 ^ 64 = 0).
  { replace (x - y) with ((b + x) - (b + y)) by lia.
    rewrite Zminus_mod, E, Z.sub_diag. reflexivity. }
  apply Z.mod_divide in D; [|lia].
  destruct D as [k Hk]. nia.
Qed.

(** The [double] literals of [update_stats]: [0.9] and [0.1] are the
    correctly rounded quotients [9 / 10] and [1 / 10]. *)
Lemma double_literals :
  double_0_9 = (9 / 10)%float /\ double_0_1 = (1 / 10)%float.
Proof. split; reflexivity. Qed.

(** A latency below [2 ^ 63] is converted to [double] in one rounding. *)
Lemma double_of_u64_small (z : Z) :
  z < 2 ^ 63 -> double_of_u64 z = PrimFloat.of_uint63 (Uint63.of_Z z).
Proof.
  intros Hz. unfold double_of_u64.
  destruct (Z.ltb_spec z (2 ^ 63)); [reflexivity|lia].
Qed.

(** The running average after [update_stats(_, _, latency)]:
    [avg * 0.9 + latency * 0.1] when the latency is positive, unchanged
    otherwise. *)
Lemma smooth_latency_average (st : PacketStats) (latency : Z) :
  avg_latency_us (smooth_latency st latency) =
    (if 0 <? latency then
       (avg_latency_us st * 0x1.ccccccccccccdp-1
        + double_of_u64 latency * 0x1.999999999999ap-4)%float
     else avg_latency_us st).
Proof. unfold smooth_latency. destruct (0 <? latency); reflexivity. Qed.

(** C2.  On an open endpoint [send_packet] returns [true] exactly when the
    kernel accepted [|data|] bytes, and it returns [true] exactly when the
    counters have moved by [packets_sent += 1] and [bytes_sent += |data|];
    when it returns [true] the running average becomes
    [avg * 0.9 + latency * 0.1], in [double] arithmetic, for the latency
    measured between the two clock readings around [send] when that is
    positive (a latency below [2 ^ 63] microseconds being converted to
    [double] in one rounding), and is unchanged when it is zero.  (The
    return value of [send] is an [ssize_t] and the size of a vector fits
    one.) *)
Theorem send_packet_accounting (host : Host) (w : World) (c : FastComms)
    (frame : list byte) :
  is_open c ->
  let size := Z.of_nat (length frame) in
  let sent := ret_val (kernel host (length (calls w))
                              (sys_send (socket_fd_ c) frame)) in
  let latency := u64 (u64 (clock host (S (reads w))) - u64 (clock host (reads w))) in
  - 2 ^ 63 <= sent < 2 ^ 63 -> size < 2 ^ 63 ->
  let r := send_packet host frame (w, c) in
  let st := stats_ c in
  let st' := stats_ (snd (snd r)) in
  (fst r = true <-> sent = size) /\
  (fst r = true <->
     packets_sent st' = u64 (packets_sent st + 1) /\
     bytes_sent st' = u64 (bytes_sent st + size)) /\
  (fst r = true ->
     avg_latency_us st' =
       (if 0 <? latency then
          (avg_latency_us st * 0x1.ccccccccccccdp-1
           + double_of_u64 latency * 0x1.999999999999ap-4)%float
        else avg_latency_us st) /\
     (latency < 2 ^ 63 ->
      double_of_u64 latency = PrimFloat.of_uint63 (Uint63.of_Z latency)) /\
     packets_received st' = packets_received st /\
     bytes_received st' = bytes_received st /\
     errors st' = errors st).
Proof.
  intros Ho size sent latency Hsent Hsize r st st'.
  subst r st'. rewrite (send_packet_open host w c frame Ho).
  cbv zeta. fold sent. fold size. fold latency. fold st.
  destruct (Z.ltb_spec sent 0) as [Hneg|Hpos]; cbn [fst snd stats_ with_stats].
  - split; [split; [discriminate|lia]|].
    split; [|discriminate].
    split; [discriminate|]. cbn. intros [Hp _].
    exfalso. apply (u64_succ_neq (packets_sent st)). symmetry. exact Hp.
  - assert (Hst : forall x,
               packets_sent (smooth_latency (count_sent st x) latency) =
                 u64 (packets_sent st + 1) /\
               bytes_sent (smooth_latency (count_sent st x) latency) =
                 u64 (bytes_sent st + x) /\
               avg_latency_us (smooth_latency (count_sent st x) latency) =
                 (if 0 <? latency then
                    (avg_latency_us st * 0x1.ccccccccccccdp-1
                     + double_of_u64 latency * 0x1.999999999999ap-4)%float
                  else avg_latency_us st) /\
               packets_received (smooth_latency (count_sent st x) latency) =
                 packets_received st /\
               bytes_received (smooth_latency (count_sent st x) latency) =
                 bytes_received st /\
               errors (smooth_latency (count_sent st x) latency) = errors st).
    { intros x. rewrite smooth_latency_average.
      unfold smooth_latency. destruct (0 <? latency); cbn; tauto. }
    destruct (Hst sent) as (Hp & Hb & Ha & Hpr & Hbr & He).
    rewrite Hp, Hb, Ha, Hpr, Hbr, He.
    rewrite Z.eqb_eq.
    pose proof (double_of_u64_small latency) as Hd.
    split; [tauto|]. split; [|tauto].
    split.
    + intros ->. tauto.
    + intros [_ E]. apply (u64_add_cancel (bytes_sent st)); [lia|lia|exact E].
Qed.

Lemma send_packet_accounting_witness :
  let r := send_packet echo_host ping (eth0_open echo_host) in
  fst r = true /\
  packets_sent (stats_ (snd (snd r))) = 1 /\
  bytes_sent (stats_ (snd (snd r))) = 4 /\
  avg_latency_us (stats_ (snd (snd r))) = 1%float.
Proof.
  pose proof (send_packet_accounting echo_host
                (fst (eth0_open echo_host)) (snd (eth0_open echo_host)) ping) as H.
  cbv zeta in H.
  specialize (H ltac:(vm_compute; split; [reflexivity|discriminate])
                ltac:(vm_compute; split; [discriminate|reflexivity])
                ltac:(vm_compute; reflexivity)).
  destruct H as (Hret & Hcnt & Havg).
  assert (E : fst (send_packet echo_host ping (eth0_open echo_host)) = true)
    by (apply Hret; vm_compute; reflexivity).
  cbv zeta. split; [exact E|].
  destruct (Havg E) as (Ha & _).
  apply Hcnt in E. destruct E as [Hp Hb].
  split; [exact Hp|]. split; [exact Hb|].
  etransitivity; [exact Ha|]. vm_compute. reflexivity.
Defined.

(** Counterexample to C4: on a short write (three bytes of a four-byte
    frame accepted) [send_packet] returns [false], yet [packets_sent] goes
    from 0 to 1 and [bytes_sent] from 0 to 3. *)
Lemma short_write_counts_a_packet :
  let s := eth0_open short_write_host in
  let r := send_packet short_write_host ping s in
  fst r = false /\
  packets_sent (stats_ (snd s)) = 0 /\
  packets_sent (stats_ (snd (snd r))) = 1 /\
  bytes_sent (stats_ (snd s)) = 0 /\
  bytes_sent (stats_ (snd (snd r))) = 3 /\
  ~ (forall host w c frame,
        is_open c -> frame <> [] ->
        let n := ret_val (kernel host (length (calls w))
                                 (sys_send (socket_fd_ c) frame)) in
        0 <= n < Z.of_nat (length frame) ->
        packets_sent (stats_ (snd (snd (send_packet host frame (w, c))))) =
        packets_sent (stats_ c)).
Proof.
  cbv zeta. repeat (split; [vm_compute; reflexivity|]).
  intros Hall.
  specialize (Hall short_write_host (fst (eth0_open short_write_host))
                   (snd (eth0_open short_write_host)) ping
                   ltac:(vm_compute; split; [reflexivity|discriminate])
                   ltac:(discriminate)).
  cbv zeta in Hall.
  specialize (Hall ltac:(vm_compute; split; [discriminate|reflexivity])).
  vm_compute in Hall. discriminate.
Qed.

(** C4, amended.  On an open endpoint, when the kernel accepts [n] bytes
    of a frame with [0 <= n < |data|], [send_packet] returns [false];
    [errors], [packets_received] and [bytes_received] are unchanged, while
    [packets_sent] is incremented and [bytes_sent] grows by [n]; the
    running average becomes [avg * 0.9 + latency * 0.1], in [double]
    arithmetic, for the latency measured between the two clock readings
    around [send] when that is positive, and is unchanged when it is
    zero. *)
Theorem send_packet_short_write (host : Host) (w : World) (c : FastComms)
    (frame : list byte) :
  is_open c ->
  let n := ret_val (kernel host (length (calls w))
                           (sys_send (socket_fd_ c) frame)) in
  let latency := u64 (u64 (clock host (S (reads w))) - u64 (clock host (reads w))) in
  0 <= n < Z.of_nat (length frame) ->
  let r := send_packet host frame (w, c) in
  let st := stats_ c in
  let st' := stats_ (snd (snd r)) in
  fst r = false /\
  errors st' = errors st /\
  packets_received st' = packets_received st /\
  bytes_received st' = bytes_received st /\
  packets_sent st' = u64 (packets_sent st + 1) /\
  bytes_sent st' = u64 (bytes_sent st + n) /\
  avg_latency_us st' =
    (if 0 <? latency then
       (avg_latency_us st * 0x1.ccccccccccccdp-1
        + double_of_u64 latency * 0x1.999999999999ap-4)%float
     else avg_latency_us st) /\
  (latency < 2 ^ 63 ->
   double_of_u64 latency = PrimFloat.of_uint63 (Uint63.of_Z latency)).
Proof.
  intros Ho n latency Hn r st st'. subst r st'.
  rewrite (send_packet_open host w c frame Ho). cbv zeta. fold n. fold st.
  fold latency.
  destruct (Z.ltb_spec n 0) as [Hneg|_]; [lia|].
  cbn [fst snd stats_ with_stats].
  split; [apply Z.eqb_neq; lia|].
  rewrite smooth_latency_average.
  pose proof (double_of_u64_small latency) as Hd.
  unfold smooth_latency. destruct (0 <? latency); cbn; tauto.
Qed.

Lemma send_packet_short_write_witness :
  let s := eth0_open short_write_host in
  let r := send_packet short_write_host ping s in
  fst r = false /\
  errors (stats_ (snd (snd r))) = errors (stats_ (snd s)) /\
  packets_received (stats_ (snd (snd r))) = packets_received (stats_ (snd s)) /\
  bytes_received (stats_ (snd (snd r))) = bytes_received (stats_ (snd s)) /\
  packets_sent (stats_ (snd (snd r))) = u64 (packets_sent (stats_ (snd s)) + 1) /\
  bytes_sent (stats_ (snd (snd r))) = u64 (bytes_sent (stats_ (snd s)) + 3) /\
  avg_latency_us (stats_ (snd (snd r))) = 1%float.
Proof.
  pose proof (send_packet_short_write short_write_host
                (fst (eth0_open short_write_host))
                (snd (eth0_open short_write_host)) ping
                ltac:(vm_compute; split; [reflexivity|discriminate])) as H.
  cbv zeta in H.
  destruct (H ltac:(vm_compute; split; [discriminate|reflexivity]))
    as (Hr & He & Hpr & Hbr & Hp & Hb & Ha & _).
  cbv zeta. repeat (split; [assumption|]).
  etransitivity; [exact Ha|]. vm_compute. reflexivity.
Defined.

(** ** Receiving *)

Lemma resize_nil (n : nat) : resize [] n = repeat x00 n.
Proof.
  unfold resize. rewrite firstn_nil. simpl. rewrite Nat.sub_0_r. reflexivity.
Qed.

Lemma resize_length (buffer : list byte) (n : nat) : length (resize buffer n) = n.
Proof.
  unfold resize. rewrite length_app, length_firstn, repeat_length. lia.
Qed.

(** Counterexample to C3, on the buffer: with no frame pending
    [receive_packet(4)] returns 0, but the buffer handed back holds four
    zero bytes; after another kernel failure it returns -1, and again four
    zero bytes. *)
Lemma receive_failure_keeps_buffer :
  fst (py_receive_packet would_block_host 4 (eth0_open would_block_host)) =
    (0, [x00; x00; x00; x00]) /\
  fst (py_receive_packet net_down_host 4 (eth0_open net_down_host)) =
    (-1, [x00; x00; x00; x00]) /\
  ~ (forall host max_size w c,
        is_open c ->
        let r := kernel host (length (calls w))
                        (sys_recv (socket_fd_ c) max_size) in
        ret_val r < 0 -> errno r = EAGAIN ->
        fst (py_receive_packet host max_size (w, c)) = (0, [])).
Proof.
  split; [vm_compute; reflexivity|]. split; [vm_compute; reflexivity|].
  intros Hall.
  specialize (Hall would_block_host 4%nat (fst (eth0_open would_block_host))
                   (snd (eth0_open would_block_host))
                   ltac:(vm_compute; split; [reflexivity|discriminate])).
  cbv zeta in Hall.
  specialize (Hall ltac:(vm_compute; reflexivity) ltac:(vm_compute; reflexivity)).
  vm_compute in Hall. discriminate.
Qed.

(** C3, amended.  On an open endpoint, when [recv] fails with [EAGAIN] /
    [EWOULDBLOCK], [receive_packet] returns 0 and the statistics, [errors]
    included, are unchanged; when [recv] fails otherwise it returns -1,
    [errors] is incremented by one and the other counters are unchanged.
    In both cases the buffer is left as resized to [max_size] bytes (it is
    not emptied): called with a fresh buffer, as from Python, it comes back
    as [max_size] zero bytes. *)
Theorem receive_packet_failures (host : Host) (w : World) (c : FastComms)
    (buffer : list byte) (max_size : nat) :
  is_open c ->
  let r := kernel host (length (calls w)) (sys_recv (socket_fd_ c) max_size) in
  ret_val r < 0 ->
  let res := receive_packet host buffer max_size (w, c) in
  let st := stats_ c in
  let st' := stats_ (snd (snd res)) in
  snd (fst res) = resize buffer max_size /\
  length (snd (fst res)) = max_size /\
  fst (py_receive_packet host max_size (w, c)) =
    (fst (fst res), repeat x00 max_size) /\
  (errno r = EAGAIN \/ errno r = EWOULDBLOCK ->
     fst (fst res) = 0 /\ st' = st) /\
  (errno r <> EAGAIN /\ errno r <> EWOULDBLOCK ->
     fst (fst res) = -1 /\
     errors st' = u64 (errors st + 1) /\
     packets_sent st' = packets_sent st /\
     bytes_sent st' = bytes_sent st /\
     packets_received st' = packets_received st /\
     bytes_received st' = bytes_received st /\
     avg_latency_us st' = avg_latency_us st).
Proof.
  intros Ho r Hneg res st st'. subst res st'.
  unfold py_receive_packet.
  rewrite !(receive_packet_open host w c _ max_size Ho). cbv zeta. fold r.
  destruct (Z.ltb_spec (ret_val r) 0) as [_|Hpos]; [|lia].
  destruct ((errno r =? EAGAIN) || (errno r =? EWOULDBLOCK)) eqn:E;
    cbn [fst snd stats_ with_stats].
  - rewrite resize_length, resize_nil.
    repeat (split; [reflexivity|]). split; [intros _; split; reflexivity|].
    intros [H1 H2]. apply orb_true_iff in E. rewrite !Z.eqb_eq in E. tauto.
  - rewrite resize_length, resize_nil.
    repeat (split; [reflexivity|]). split.
    + intros H. apply orb_false_iff in E. rewrite !Z.eqb_neq in E. tauto.
    + intros _. cbn. tauto.
Qed.

Lemma receive_packet_failures_witness :
  let s := eth0_open would_block_host in
  let res := receive_packet would_block_host [] 4 s in
  fst (fst res) = 0 /\ snd (fst res) = [x00; x00; x00; x00] /\
  stats_ (snd (snd res)) = stats_ (snd s).
Proof.
  pose proof (receive_packet_failures would_block_host
                (fst (eth0_open would_block_host))
                (snd (eth0_open would_block_host)) [] 4
                ltac:(vm_compute; split; [reflexivity|discriminate])) as H.
  cbv zeta in H.
  specialize (H ltac:(vm_compute; reflexivity)).
  destruct H as (Hbuf & _ & _ & Hblock & _).
  destruct (Hblock ltac:(left; vm_compute; reflexivity)) as [H0 Hst].
  cbv zeta. split; [exact H0|]. split; [exact Hbuf|exact Hst].
Defined.

(** ** Request and response *)

(** C5.  [send_and_receive] reads the clock, then calls [send_packet]; if
    that fails the result is a failure with "Failed to send request".
    Otherwise it calls [receive_packet] with the default size: a negative
    value gives "Failed to receive response", zero gives "Response
    timeout", and a positive value gives [success = true], [data] the
    received bytes and [latency_us] the microseconds between the first
    clock reading and a reading taken after the receive. *)
Theorem send_and_receive_outcomes (host : Host) (s : State)
    (request response : list byte) :
  let start_time := fst (get_timestamp_us host s) in
  let sp := send_packet host request (snd (get_timestamp_us host s)) in
  let rp := receive_packet host response default_max_size (snd sp) in
  let now := fst (get_timestamp_us host (snd rp)) in
  let result := fst (fst (send_and_receive host request response s)) in
  (fst sp = false ->
     result = mkCommResult false [] 0 "Failed to send request") /\
  (fst sp = true -> fst (fst rp) < 0 ->
     result = mkCommResult false [] 0 "Failed to receive response") /\
  (fst sp = true -> fst (fst rp) = 0 ->
     result = mkCommResult false [] 0 "Response timeout") /\
  (fst sp = true -> 0 < fst (fst rp) ->
     result = mkCommResult true (snd (fst rp)) (u64 (now - start_time))
                           EmptyString).
Proof.
  unfold send_and_receive, bind, ret. cbv zeta. cbn [fst snd].
  destruct (send_packet host request (snd (get_timestamp_us host s)))
    as [sent s1].
  cbn [fst snd]. destruct sent; cbn [negb fst snd].
  - destruct (receive_packet host response default_max_size s1)
      as [[received buf] s2].
    cbn [fst snd].
    destruct (Z.ltb_spec received 0) as [Hneg|Hnn]; cbn [fst snd].
    + repeat split; intros; try reflexivity; try discriminate; lia.
    + destruct (Z.eqb_spec received 0) as [Hz|Hnz]; cbn [fst snd];
        repeat split; intros; try reflexivity; try discriminate; lia.
  - repeat split; intros; try reflexivity; discriminate.
Qed.

Lemma send_and_receive_outcomes_witness :
  fst (fst (send_and_receive echo_host ping [] (eth0_open echo_host))) =
  mkCommResult true ping 30 EmptyString.
Proof.
  pose proof (send_and_receive_outcomes echo_host (eth0_open echo_host) ping [])
    as H.
  cbv zeta in H. destruct H as (_ & _ & _ & H).
  rewrite (H ltac:(vm_compute; reflexivity) ltac:(vm_compute; reflexivity)).
  vm_compute. reflexivity.
Defined.

(** ** The receive timeout *)

(** C10.  On a closed endpoint [set_timeout(t)] stores [t] and issues no
    system call; when the next [initialize] succeeds, its last system
    call is the [setsockopt(SO_RCVTIMEO)] on the new descriptor with
    [tv_sec = t / 1000] and [tv_usec = (t % 1000) * 1000], and [t] is
    still the stored timeout. *)
Theorem set_timeout_closed_then_initialize (host : Host) (w : World)
    (c : FastComms) (t : Z) :
  initialized_ c = false ->
  let s1 := snd (set_timeout host t (w, c)) in
  s1 = (w, with_timeout_ms c t) /\
  timeout_ms_ (snd s1) = t /\
  (fst (initialize host s1) = true ->
   let s2 := snd (initialize host s1) in
   exists fd rest,
     calls (fst s2) =
       sys_setsockopt_rcvtimeo fd (t / 1000) (u32 (t mod 1000 * 1000)) :: rest /\
     socket_fd_ (snd s2) = fd /\ 0 <= fd /\
     initialized_ (snd s2) = true /\
     timeout_ms_ (snd s2) = t).
Proof.
  intros Hc. cbv zeta.
  rewrite set_timeout_run, Hc. cbn [andb snd].
  split; [reflexivity|]. split; [reflexivity|].
  rewrite (initialize_closed host w (with_timeout_ms c t) Hc). cbv zeta.
  cbn [timeout_ms_ interface_name_ with_timeout_ms].
  destruct (Z.ltb_spec (ret_val (kernel host (length (calls w)) sys_socket)) 0)
    as [H1|H1]; [discriminate|].
  destruct (ret_val (kernel host (S (length (calls w))) _) <? 0);
    [discriminate|].
  destruct (ret_val (kernel host (S (S (length (calls w)))) _) <? 0);
    [discriminate|].
  intros _. cbn [fst snd calls]. eexists. eexists.
  split; [reflexivity|]. cbn. repeat split. exact H1.
Qed.

Lemma set_timeout_closed_then_initialize_witness :
  let s1 := snd (set_timeout echo_host 2500 eth0_closed) in
  timeout_ms_ (snd s1) = 2500 /\
  exists fd rest,
    calls (fst (snd (initialize echo_host s1))) =
      sys_setsockopt_rcvtimeo fd 2 500000 :: rest.
Proof.
  pose proof (set_timeout_closed_then_initialize echo_host
                (fst eth0_closed) (snd eth0_closed) 2500
                ltac:(vm_compute; reflexivity)) as H.
  cbv zeta in H. destruct H as (_ & Ht & Hinit).
  cbv zeta. split; [exact Ht|].
  destruct (Hinit ltac:(vm_compute; reflexivity)) as (fd & rest & Hcalls & _).
  exists fd, rest. exact Hcalls.
Defined.

(** ** The stress test *)

Lemma is_open_dec (c : FastComms) : is_open c \/ ~ is_open c.
Proof.
  destruct (initialized_ c && (0 <=? socket_fd_ c)) eqn:E.
  - left. apply open_test, E.
  - right. intros Ho. apply open_test in Ho. congruence.
Qed.



(** What one [send_packet] does to the world: the clock is not turned
    back, nothing is written to the console, the endpoint changes in its
    statistics only, and an open endpoint hands the frame to the kernel
    once while one that is not open calls nothing. *)
Lemma send_packet_effect (host : Host) (frame : list byte) (w : World)
    (c : FastComms) :
  let r := send_packet host frame (w, c) in
  (reads w <= reads (fst (snd r)))%nat /\
  console (fst (snd r)) = console w /\
  (exists st, snd (snd r) = with_stats c st) /\
  (is_open c -> calls (fst (snd r)) = sys_send (socket_fd_ c) frame :: calls w) /\
  (~ is_open c -> calls (fst (snd r)) = calls w).
Proof.
  cbv zeta. destruct (is_open_dec c) as [Ho|Hc].
  - rewrite (send_packet_open host w c frame Ho). cbv zeta.
    destruct (_ <? 0); cbn [fst snd reads calls console].
    all: split; [lia|]; split; [reflexivity|]; split; [eexists; reflexivity|].
    all: split; [reflexivity|contradiction].
  - rewrite (send_packet_closed host w c frame Hc). cbn [fst snd].
    split; [lia|]. split; [reflexivity|].
    split; [exists (stats_ c); destruct c; reflexivity|].
    split; [contradiction|reflexivity].
Qed.








(** ** Properties kept by every call *)

Lemma preserves_ret {A : Type} (P : State -> Prop) (a : A) : preserves P (ret a).
Proof. intros s Hs. exact Hs. Qed.

Lemma preserves_bind {A B : Type} (P : State -> Prop) (m : M A) (k : A -> M B) :
  preserves P m -> (forall a, preserves P (k a)) -> preserves P (bind m k).
Proof.
  intros Hm Hk s Hs. unfold bind. apply Hk, Hm, Hs.
Qed.

Lemma preserves_this (P : State -> Prop) : preserves P this.
Proof. intros s Hs. exact Hs. Qed.

Ltac preserve_with known :=
  repeat first
    [ solve [known]
    | apply preserves_ret
    | apply preserves_this
    | apply preserves_bind; [|intros ?]
    | progress cbv zeta
    | match goal with
      | |- preserves _ (if ?b then _ else _) => destruct b
      | |- preserves _ (match ?x with Some _ => _ | None => _ end) => destruct x
      end ].

Ltac preserve := preserve_with ltac:(auto 2).

Section Lifting.

Variable host : Host.
Variable P : State -> Prop.
Variable F : list byte -> Prop.

Hypothesis Htime : preserves P (get_timestamp_us host).
Hypothesis Hinit : preserves P (initialize host).
Hypothesis Hclose : preserves P (close host).
Hypothesis Hsend : forall frame, F frame -> preserves P (send_packet host frame).
Hypothesis Hrecv :
  forall buffer max_size, preserves P (receive_packet host buffer max_size).
Hypothesis Htimeout : forall t, preserves P (set_timeout host t).
Hypothesis Hprint : forall line, preserves P (print line).

Lemma send_and_receive_preserves (request response : list byte) :
  F request -> preserves P (send_and_receive host request response).
Proof.
  intros Hf. unfold send_and_receive. preserve.
Qed.

Lemma burst_loop_preserves (packets : list (list byte)) (sent_count : Z) :
  Forall F packets -> preserves P (burst_loop host packets sent_count).
Proof.
  intros Hf. revert sent_count.
  induction Hf as [|packet rest Hp _ IH]; intros sent_count; cbn [burst_loop].
  - preserve.
  - preserve.
Qed.

Lemma stress_loop_preserves (turns : nat) (end_time : Z)
    (test_packet : list byte) (packet_size : nat) (test_stats : PacketStats) :
  F test_packet ->
  preserves P (stress_loop host turns end_time test_packet packet_size test_stats).
Proof.
  intros Hf. revert test_stats.
  induction turns as [|turns IH]; intros test_stats; cbn [stress_loop].
  - preserve.
  - preserve.
Qed.

Lemma exec_op_preserves (turns : nat) (o : op) :
  op_frames F o ->
  (is_reset o = true -> preserves P reset_statistics) ->
  preserves P (exec_op host turns o).
Proof.
  intros Hf Hreset.
  destruct o; cbn [exec_op op_frames is_reset] in *;
    unfold py_receive_packet, py_send_and_receive, py_enter, py_exit, destroy,
      burst_send, measure_latency, stress_test, get_statistics, is_ready;
    preserve_with
      ltac:(auto 2 using send_and_receive_preserves, burst_loop_preserves,
              stress_loop_preserves).
Qed.

Lemma run_ops_preserves (turns : nat) (ops : list op) :
  Forall (op_frames F) ops ->
  (existsb is_reset ops = true -> preserves P reset_statistics) ->
  forall s s', P s -> run_ops host turns ops s = Some s' -> P s'.
Proof.
  intros Hf. induction Hf as [|o ops Ho _ IH]; intros Hreset s s' Hs Hrun.
  - cbn in Hrun. injection Hrun as <-. exact Hs.
  - cbn [run_ops existsb] in *.
    destruct (fst (exec_op host turns o s)); [|discriminate].
    apply (IH ltac:(intros E; apply Hreset; rewrite E; apply orb_true_r)
              (snd (exec_op host turns o s))); [|exact Hrun].
    apply exec_op_preserves; [exact Ho| |exact Hs].
    intros E. apply Hreset. rewrite E. reflexivity.
Qed.

End Lifting.

(** ** The flag and the descriptor *)

Section Handle.

Variable host : Host.

Lemma send_packet_keeps_handle (frame : list byte) (s : State) :
  initialized_ (snd (snd (send_packet host frame s))) = initialized_ (snd s) /\
  socket_fd_ (snd (snd (send_packet host frame s))) = socket_fd_ (snd s).
Proof.
  destruct s as [w c]. destruct (is_open_dec c) as [Ho|Hc].
  - rewrite (send_packet_open host w c frame Ho). cbv zeta.
    destruct (_ <? 0); cbn; tauto.
  - rewrite (send_packet_closed host w c frame Hc). cbn. tauto.
Qed.

Lemma receive_packet_keeps_handle (buffer : list byte) (max_size : nat)
    (s : State) :
  initialized_ (snd (snd (receive_packet host buffer max_size s))) =
    initialized_ (snd s) /\
  socket_fd_ (snd (snd (receive_packet host buffer max_size s))) =
    socket_fd_ (snd s).
Proof.
  destruct s as [w c]. destruct (is_open_dec c) as [Ho|Hc].
  - rewrite (receive_packet_open host w c buffer max_size Ho). cbv zeta.
    destruct (_ <? 0); [destruct (_ || _)|]; cbn; tauto.
  - rewrite (receive_packet_closed host w c buffer max_size Hc). cbn. tauto.
Qed.

Lemma initialize_agrees : preserves handle_agrees (initialize host).
Proof.
  intros [w c] Hs. unfold handle_agrees in *. cbn [snd] in Hs.
  destruct (initialized_ c) eqn:Hi.
  - rewrite (initialize_again host w c Hi). cbn [snd]. rewrite Hi. exact Hs.
  - rewrite (initialize_closed host w c Hi). cbv zeta.
    destruct (Z.ltb_spec (ret_val (kernel host (length (calls w)) sys_socket)) 0)
      as [H1|H1].
    + cbn. rewrite Hi. split; [discriminate|lia].
    + destruct (_ <? 0); [|destruct (_ <? 0)]; cbn; rewrite ?Hi;
        (split; [discriminate|lia]) || tauto.
Qed.

Lemma close_agrees : preserves handle_agrees (close host).
Proof.
  intros [w c] _. unfold handle_agrees. rewrite close_run.
  destruct (Z.leb_spec 0 (socket_fd_ c)); cbn; split; (discriminate || lia).
Qed.

Lemma handle_agrees_calls (turns : nat) (ops : list op) (s s' : State) :
  handle_agrees s -> run_ops host turns ops s = Some s' -> handle_agrees s'.
Proof.
  intros Hs Hrun.
  apply (run_ops_preserves host handle_agrees (fun _ => True))
    with (turns := turns) (ops := ops) (s := s); try assumption.
  - intros s0 Hs0. exact Hs0.
  - apply initialize_agrees.
  - apply close_agrees.
  - intros frame _ s0 Hs0. unfold handle_agrees in *.
    destruct (send_packet_keeps_handle frame s0) as [-> ->]. exact Hs0.
  - intros buffer max_size s0 Hs0. unfold handle_agrees in *.
    destruct (receive_packet_keeps_handle buffer max_size s0) as [-> ->].
    exact Hs0.
  - intros t [w c] Hs0. unfold handle_agrees in *. rewrite set_timeout_run.
    destruct (_ && _); exact Hs0.
  - intros line s0 Hs0. exact Hs0.
  - clear. induction ops as [|o ops IH]; constructor; [|exact IH].
    destruct o; cbn; auto. induction packets; constructor; auto.
  - intros _ s0 Hs0. exact Hs0.
Qed.

End Handle.

(** A run of calls goes through the end of each of its prefixes. *)
Lemma run_ops_app (host : Host) (turns : nat) (ops1 ops2 : list op) (s : State) :
  run_ops host turns (ops1 ++ ops2) s =
  match run_ops host turns ops1 s with
  | Some s1 => run_ops host turns ops2 s1
  | None => None
  end.
Proof.
  revert s. induction ops1 as [|o ops1 IH]; intros s; cbn [run_ops app].
  - reflexivity.
  - destruct (fst (exec_op host turns o s)); [apply IH|reflexivity].
Qed.

(** C1.  Take any sequence of calls on a freshly constructed endpoint
    (initialize, close, send_packet, receive_packet, send_and_receive,
    burst_send, measure_latency, stress_test, get_statistics,
    reset_statistics, set_timeout, is_ready, the scoped entry and exit, and
    the destructor).  At every point between two calls, that is after any
    prefix [ops1] of the calls, the flag [initialized_] is set exactly when
    the descriptor [socket_fd_] is non-negative, and [is_ready()] returns
    the flag, which is that condition. *)
Theorem initialized_iff_socket_valid (host : Host) (turns : nat)
    (ops1 ops2 : list op) (interface_name : string) (timeout_ms : Z)
    (w : World) (s : State) :
  run_ops host turns (ops1 ++ ops2)
          (w, FastComms_new interface_name timeout_ms) = Some s ->
  exists s1,
    run_ops host turns ops1 (w, FastComms_new interface_name timeout_ms)
      = Some s1 /\
    (initialized_ (snd s1) = true <-> 0 <= socket_fd_ (snd s1)) /\
    fst (is_ready s1) = initialized_ (snd s1) /\
    (fst (is_ready s1) = true <-> 0 <= socket_fd_ (snd s1)).
Proof.
  intros Hrun. rewrite run_ops_app in Hrun.
  destruct (run_ops host turns ops1
              (w, FastComms_new interface_name timeout_ms)) as [s1|] eqn:E1;
    [|discriminate].
  exists s1. split; [reflexivity|].
  assert (Hs : handle_agrees s1).
  { apply (handle_agrees_calls host turns ops1
             (w, FastComms_new interface_name timeout_ms) s1); [|exact E1].
    unfold handle_agrees. cbn. split; [discriminate|lia]. }
  unfold handle_agrees in Hs.
  assert (Hr : fst (is_ready s1) = initialized_ (snd s1)).
  { unfold is_ready, bind, this, ret. cbn [fst snd].
    destruct (initialized_ (snd s1)); cbn [andb]; [|reflexivity].
    apply Z.leb_le, Hs. reflexivity. }
  split; [exact Hs|]. split; [exact Hr|]. rewrite Hr. exact Hs.
Qed.

Lemma initialized_iff_socket_valid_witness :
  exists s1,
    run_ops echo_host 100 sample_ops eth0_closed = Some s1 /\
    (initialized_ (snd s1) = true <-> 0 <= socket_fd_ (snd s1)) /\
    fst (is_ready s1) = initialized_ (snd s1) /\
    (fst (is_ready s1) = true <-> 0 <= socket_fd_ (snd s1)).
Proof.
  destruct (run_ops echo_host 100 (sample_ops ++ [op_close]) eth0_closed)
    as [s|] eqn:E.
  - exact (initialized_iff_socket_valid echo_host 100 sample_ops [op_close]
             "eth0" 1000 World_new s E).
  - vm_compute in E. discriminate.
Defined.

(** ** Packets and bytes *)

Lemma traffic_nonneg (host : Host) (log : list syscall) : 0 <= traffic host log.
Proof.
  induction log as [|call rest IH]; cbn [traffic]; [lia|].
  assert (0 <= moved host (length rest) call) by (destruct call; cbn; lia).
  lia.
Qed.

Lemma smooth_latency_counters (st : PacketStats) (latency : Z) :
  packets_sent (smooth_latency st latency) = packets_sent st /\
  packets_received (smooth_latency st latency) = packets_received st /\
  bytes_sent (smooth_latency st latency) = bytes_sent st /\
  bytes_received (smooth_latency st latency) = bytes_received st /\
  errors (smooth_latency st latency) = errors st.
Proof.
  unfold smooth_latency. destruct (0 <? latency); cbn; tauto.
Qed.

Section Counters.

Variable host : Host.
Variable mark : option nat.

(** Nothing moved, nothing counted. *)
Lemma counters_inv_quiet (w w' : World) (c c' : FastComms) :
  traffic host (calls w') = traffic host (calls w) ->
  (forall n, wide_since host n (calls w') = wide_since host n (calls w)) ->
  packets_sent (stats_ c') = packets_sent (stats_ c) ->
  bytes_sent (stats_ c') = bytes_sent (stats_ c) ->
  packets_received (stats_ c') = packets_received (stats_ c) ->
  bytes_received (stats_ c') = bytes_received (stats_ c) ->
  counters_inv host mark (w, c) -> counters_inv host mark (w', c').
Proof.
  unfold counters_inv, counters_ok. cbn [fst snd].
  intros Ht Hw Hp Hb Hpr Hbr Hinv Hbound.
  rewrite Ht in *. rewrite Hp, Hb, Hpr, Hbr.
  destruct (Hinv Hbound) as [Hok Hwide].
  split; [exact Hok|]. intros n Hn. rewrite Hw. apply Hwide, Hn.
Qed.

(** A call that moves no byte extends the log. *)
Lemma counters_inv_call (r r' : nat) (log : list syscall) (c c' : FastComms)
    (call : syscall) (con con' : list console_line) :
  moved host (length log) call = 0 ->
  wide host (length log) call = false ->
  packets_sent (stats_ c') = packets_sent (stats_ c) ->
  bytes_sent (stats_ c') = bytes_sent (stats_ c) ->
  packets_received (stats_ c') = packets_received (stats_ c) ->
  bytes_received (stats_ c') = bytes_received (stats_ c) ->
  counters_inv host mark (mkWorld r log con, c) ->
  counters_inv host mark (mkWorld r' (call :: log) con', c').
Proof.
  intros Hm Hw. apply counters_inv_quiet; cbn [calls traffic wide_since].
  - rewrite Hm. reflexivity.
  - intros n. rewrite Hw, andb_false_r. reflexivity.
Qed.

Lemma counters_inv_time : preserves (counters_inv host mark) (get_timestamp_us host).
Proof.
  intros [w c] Hs. unfold get_timestamp_us. cbn [fst snd].
  revert Hs. apply counters_inv_quiet; reflexivity.
Qed.

Lemma counters_inv_print (line : console_line) :
  preserves (counters_inv host mark) (print line).
Proof.
  intros [w c] Hs. unfold print. cbn [fst snd].
  revert Hs. apply counters_inv_quiet; reflexivity.
Qed.

Lemma counters_inv_initialize : preserves (counters_inv host mark) (initialize host).
Proof.
  intros [[r log con] c] Hs. destruct (initialized_ c) eqn:Hi.
  - rewrite (initialize_again host _ c Hi). exact Hs.
  - rewrite (initialize_closed host _ c Hi). cbv zeta. cbn [reads calls console].
    destruct (_ <? 0); [|destruct (_ <? 0); [|destruct (_ <? 0)]]; cbn [snd];
      repeat (apply (counters_inv_call r) with (c := c) (con := con);
              try reflexivity);
      exact Hs.
Qed.

Lemma counters_inv_close : preserves (counters_inv host mark) (close host).
Proof.
  intros [[r log con] c] Hs. rewrite close_run. cbn [snd reads calls console].
  destruct (0 <=? socket_fd_ c).
  - apply (counters_inv_call r) with (c := c) (con := con); try reflexivity.
    exact Hs.
  - revert Hs. apply counters_inv_quiet; reflexivity.
Qed.

Lemma counters_inv_set_timeout (t : Z) :
  preserves (counters_inv host mark) (set_timeout host t).
Proof.
  intros [[r log con] c] Hs. rewrite set_timeout_run.
  cbn [snd reads calls console].
  destruct (_ && _).
  - apply (counters_inv_call r) with (c := c) (con := con); try reflexivity.
    exact Hs.
  - revert Hs. apply counters_inv_quiet; reflexivity.
Qed.

(** A failed [send] or [recv] counts an error and moves nothing. *)
Lemma counters_inv_failed (w : World) (c : FastComms) (r : nat) (call : syscall)
    (con : list console_line) :
  ret_val (kernel host (length (calls w)) call) < 0 ->
  counters_inv host mark (w, c) ->
  counters_inv host mark
    (mkWorld r (call :: calls w) con, with_stats c (count_failed (stats_ c))).
Proof.
  intros Hneg. destruct w as [r0 log con0]. cbn [calls] in *.
  apply counters_inv_call with (r := r0) (con := con0); try reflexivity.
  - destruct call; cbn; lia.
  - destruct call; cbn; try reflexivity. apply Z.leb_gt. lia.
Qed.

Hypothesis Hmoves : moves_bytes host.

Lemma counters_inv_send (frame : list byte) :
  frame <> [] -> preserves (counters_inv host mark) (send_packet host frame).
Proof.
  intros Hf [w c] Hs. destruct (is_open_dec c) as [Ho|Hc];
    [|rewrite (send_packet_closed host w c frame Hc); exact Hs].
  rewrite (send_packet_open host w c frame Ho). cbv zeta.
  set (call := sys_send (socket_fd_ c) frame).
  set (sent := ret_val (kernel host (length (calls w)) call)).
  destruct (Z.ltb_spec sent 0) as [Hneg|Hnn]; cbn [snd].
  - apply counters_inv_failed; assumption.
  - assert (Hone : 1 <= sent).
    { pose proof (proj1 Hmoves (length (calls w)) (socket_fd_ c) frame Hf) as Hm.
      fold call in Hm. fold sent in Hm. lia. }
    unfold counters_inv, counters_ok in *. cbn [fst snd calls stats_ with_stats] in *.
    assert (Hmv : moved host (length (calls w)) call = sent)
      by (unfold call at 1; cbn [moved]; fold call; fold sent; lia).
    cbn [traffic]. rewrite Hmv.
    intros Hbound.
    pose proof (traffic_nonneg host (calls w)) as Ht.
    destruct (Hs ltac:(lia)) as [(Hp & Hr & Hb) Hwide].
    destruct (smooth_latency_counters (count_sent (stats_ c) sent)
                (u64 (u64 (clock host (S (reads w))) - u64 (clock host (reads w)))))
      as (-> & -> & -> & -> & _).
    cbn [packets_sent packets_received bytes_sent bytes_received count_sent].
    unfold u64. rewrite !Z.mod_small by lia.
    split; [lia|].
    intros n Hn. cbn [wide_since].
    intros Hw. apply orb_true_iff in Hw. destruct Hw as [Hw|Hw].
    + apply andb_true_iff in Hw. destruct Hw as [_ Hw].
      unfold call at 1 in Hw. cbn [wide] in Hw. fold call in Hw. fold sent in Hw.
      apply Z.leb_le in Hw. lia.
    + specialize (Hwide n Hn Hw). lia.
Qed.

Lemma counters_inv_receive (buffer : list byte) (max_size : nat) :
  preserves (counters_inv host mark) (receive_packet host buffer max_size).
Proof.
  intros [w c] Hs. destruct (is_open_dec c) as [Ho|Hc];
    [|rewrite (receive_packet_closed host w c buffer max_size Hc); exact Hs].
  rewrite (receive_packet_open host w c buffer max_size Ho). cbv zeta.
  set (call := sys_recv (socket_fd_ c) max_size).
  set (received := ret_val (kernel host (length (calls w)) call)).
  destruct (Z.ltb_spec received 0) as [Hneg|Hnn]; cbn [snd].
  - destruct (_ || _); cbn [snd].
    + destruct w as [r0 log con0]. cbn [reads calls console] in *.
      apply counters_inv_call with (r := r0) (c := c) (con := con0);
        try reflexivity; [|exact Hs].
      cbn. fold call. fold received. lia.
    + apply counters_inv_failed; assumption.
  - assert (Hone : 1 <= received).
    { pose proof (proj2 Hmoves (length (calls w)) (socket_fd_ c) max_size) as Hm.
      fold call in Hm. fold received in Hm. lia. }
    unfold counters_inv, counters_ok in *. cbn [fst snd calls stats_ with_stats] in *.
    assert (Hmv : moved host (length (calls w)) call = received)
      by (unfold call at 1; cbn [moved]; fold call; fold received; lia).
    cbn [traffic]. rewrite Hmv.
    intros Hbound.
    pose proof (traffic_nonneg host (calls w)) as Ht.
    destruct (Hs ltac:(lia)) as [(Hp & Hr & Hb) Hwide].
    destruct (smooth_latency_counters (count_received (stats_ c) received) 0)
      as (-> & -> & -> & -> & _).
    cbn [packets_sent packets_received bytes_sent bytes_received count_received].
    unfold u64. rewrite !Z.mod_small by lia.
    split; [lia|].
    intros n Hn. cbn [wide_since]. unfold call at 1. cbn [wide].
    rewrite andb_false_r. cbn [orb]. apply Hwide, Hn.
Qed.

End Counters.

Lemma counters_inv_reset (host : Host) :
  preserves (counters_inv host None) reset_statistics.
Proof.
  intros [w c] _. unfold reset_statistics, set_stats, counters_inv, counters_ok.
  cbn. intros _. pose proof (traffic_nonneg host (calls w)).
  split; [lia|]. intros n Hn. discriminate.
Qed.

Lemma wide_since_short (host : Host) (n : nat) (log : list syscall) :
  (length log <= n)%nat -> wide_since host n log = false.
Proof.
  induction log as [|call rest IH]; cbn [wide_since length]; intros Hlen.
  - reflexivity.
  - rewrite IH by lia. rewrite (proj2 (Nat.leb_gt n (length rest))) by lia.
    reflexivity.
Qed.

Lemma counters_inv_calls (host : Host) (mark : option nat) (turns : nat)
    (ops : list op) (s s' : State) :
  moves_bytes host ->
  Forall (op_frames (fun frame => frame <> [])) ops ->
  (existsb is_reset ops = true -> mark = None) ->
  counters_inv host mark s ->
  run_ops host turns ops s = Some s' ->
  counters_inv host mark s'.
Proof.
  intros Hmoves Hframes Hreset Hs Hrun.
  apply (run_ops_preserves host (counters_inv host mark)
           (fun frame => frame <> []))
    with (turns := turns) (ops := ops) (s := s); try assumption.
  - apply counters_inv_time.
  - apply counters_inv_initialize.
  - apply counters_inv_close.
  - intros frame Hf. apply counters_inv_send; assumption.
  - apply counters_inv_receive, Hmoves.
  - apply counters_inv_set_timeout.
  - apply counters_inv_print.
  - intros E. rewrite (Hreset E). apply counters_inv_reset.
Qed.

(** Counterexample to C6, when the kernel reports zero bytes: a [recv]
    that delivers nothing (as with [max_size = 0]) counts a packet
    received and no byte, and a one-byte frame of which [send] accepts
    nothing counts a packet sent and no byte. *)
Lemma zero_bytes_count_as_packets :
  (exists s,
      run_ops zero_read_host 0 [op_initialize; op_receive_packet 0] eth0_closed
        = Some s /\
      packets_received (stats_ (snd s)) = 1 /\
      bytes_received (stats_ (snd s)) = 0) /\
  (exists s,
      run_ops short_write_host 0 [op_initialize; op_send_packet one_byte]
        eth0_closed = Some s /\
      packets_sent (stats_ (snd s)) = 1 /\
      bytes_sent (stats_ (snd s)) = 0) /\
  ~ (forall host turns ops s,
        Forall (op_frames (fun frame => frame <> [])) ops ->
        run_ops host turns ops eth0_closed = Some s ->
        packets_sent (stats_ (snd s)) <= bytes_sent (stats_ (snd s)) /\
        packets_received (stats_ (snd s)) <= bytes_received (stats_ (snd s))).
Proof.
  split; [|split].
  - eexists. split; [vm_compute; reflexivity|]. split; reflexivity.
  - eexists. split; [vm_compute; reflexivity|]. split; reflexivity.
  - intros Hall.
    destruct (run_ops zero_read_host 0 [op_initialize; op_receive_packet 0]
                eth0_closed) as [s|] eqn:E; [|vm_compute in E; discriminate].
    specialize (Hall zero_read_host 0%nat [op_initialize; op_receive_packet 0] s
                     ltac:(repeat constructor) E).
    vm_compute in E. injection E as <-. vm_compute in Hall.
    destruct Hall as [_ Hall]. apply Hall. reflexivity.
Qed.

(** C6, amended.  Take any sequence of calls on a freshly constructed
    endpoint in which every frame sent carries at least one byte, on a
    host whose kernel moves at least one byte whenever [send] or [recv]
    does not fail, and as long as fewer than [2 ^ 64] bytes have been
    moved in all (no counter has wrapped).  Then at every point
    [bytes_sent >= packets_sent] and [bytes_received >= packets_received],
    and [bytes_sent > packets_sent] whenever, since the last reset of the
    statistics, the kernel accepted more than one byte of some frame. *)
Theorem bytes_dominate_packets (host : Host) (turns : nat)
    (interface_name : string) (timeout_ms : Z) (w : World)
    (ops1 ops2 : list op) (s1 s : State) :
  moves_bytes host ->
  Forall (op_frames (fun frame => frame <> [])) (ops1 ++ ops2) ->
  run_ops host turns ops1 (w, FastComms_new interface_name timeout_ms) = Some s1 ->
  existsb is_reset ops2 = false ->
  run_ops host turns ops2 s1 = Some s ->
  traffic host (calls (fst s)) < 2 ^ 64 ->
  let st := stats_ (snd s) in
  packets_sent st <= bytes_sent st /\
  packets_received st <= bytes_received st /\
  (wide_since host (length (calls (fst s1))) (calls (fst s)) = true ->
   packets_sent st < bytes_sent st).
Proof.
  intros Hmoves Hframes Hrun1 Hnoreset Hrun2 Hbound st.
  apply Forall_app in Hframes. destruct Hframes as [Hf1 Hf2].
  assert (H1 : counters_inv host None s1).
  { apply (counters_inv_calls host None turns ops1
             (w, FastComms_new interface_name timeout_ms) s1);
      try assumption; [reflexivity|].
    unfold counters_inv, counters_ok. cbn. intros _.
    pose proof (traffic_nonneg host (calls w)).
    split; [lia|]. intros n Hn. discriminate. }
  set (n := length (calls (fst s1))).
  assert (H1' : counters_inv host (Some n) s1).
  { intros Hb. destruct (H1 Hb) as [Hok _]. split; [exact Hok|].
    intros n' Hn' Hw. injection Hn' as <-.
    rewrite wide_since_short in Hw by (subst n; lia). discriminate. }
  assert (H2 : counters_inv host (Some n) s).
  { apply (counters_inv_calls host (Some n) turns ops2 s1 s); try assumption.
    intros E. rewrite Hnoreset in E. discriminate. }
  destruct (H2 Hbound) as [(Hp & Hr & _) Hwide].
  subst st. split; [lia|]. split; [lia|].
  intros Hw. apply (Hwide n eq_refl Hw).
Qed.

Lemma echo_host_moves_bytes : moves_bytes echo_host.
Proof.
  split.
  - intros i fd frame Hf. right. cbn.
    destruct frame as [|b rest]; [contradiction|]. cbn [length]. lia.
  - intros i fd max_size. right. cbn. lia.
Qed.

Lemma bytes_dominate_packets_witness :
  match run_ops echo_host 0 ops_before_reset eth0_closed with
  | Some s1 =>
      match run_ops echo_host 0 ops_after_reset s1 with
      | Some s =>
          packets_sent (stats_ (snd s)) <= bytes_sent (stats_ (snd s)) /\
          packets_received (stats_ (snd s)) <= bytes_received (stats_ (snd s)) /\
          packets_sent (stats_ (snd s)) < bytes_sent (stats_ (snd s))
      | None => False
      end
  | None => False
  end.
Proof.
  destruct (run_ops echo_host 0 ops_before_reset eth0_closed) as [s1|] eqn:E1;
    [|vm_compute in E1; discriminate].
  destruct (run_ops echo_host 0 ops_after_reset s1) as [s|] eqn:E2;
    [|vm_compute in E1; injection E1 as <-; vm_compute in E2; discriminate].
  pose proof (bytes_dominate_packets echo_host 0 "eth0" 1000 World_new
                ops_before_reset ops_after_reset s1 s echo_host_moves_bytes)
    as H.
  specialize (H ltac:(repeat constructor; discriminate) E1 eq_refl E2).
  vm_compute in E1. injection E1 as <-. vm_compute in E2. injection E2 as <-.
  specialize (H ltac:(vm_compute; reflexivity)).
  cbv zeta in H. destruct H as (Hs & Hr & Hstrict).
  split; [exact Hs|]. split; [exact Hr|].
  apply Hstrict. vm_compute. reflexivity.
Defined.

(** ** CRC-32: what it detects *)

Section CrcDetection.
Import PacketValidator Reference.

Lemma lxor_cancel_r (a b c : Z) : Z.lxor a c = Z.lxor b c -> a = b.
Proof.
  intros E.
  assert (U : forall z, z = Z.lxor (Z.lxor z c) c)
    by (intros z; rewrite Z.lxor_assoc, Z.lxor_nilpotent, Z.lxor_0_r; reflexivity).
  rewrite (U a), (U b), E. reflexivity.
Qed.

Lemma lxor_cancel_l (a b c : Z) : Z.lxor c a = Z.lxor c b -> a = b.
Proof.
  rewrite (Z.lxor_comm c a), (Z.lxor_comm c b). apply lxor_cancel_r.
Qed.

Lemma crc_shift_inj (x y : Z) :
  0 <= x < 2 ^ 32 -> 0 <= y < 2 ^ 32 -> crc_shift x = crc_shift y -> x = y.
Proof.
  intros Hx Hy E. rewrite !CrcFacts.crc_shift_bit0 in E.
  assert (Hb : Z.testbit x 0 = Z.testbit y 0).
  { assert (T : forall z, 0 <= z < 2 ^ 32 ->
               Z.testbit (Z.lxor (Z.shiftr z 1) (poly_if (Z.testbit z 0))) 31 =
               Z.testbit z 0).
    { intros z Hz. rewrite Z.lxor_spec, Z.shiftr_spec by lia.
      rewrite (testbit_above 32 z (31 + 1)) by lia.
      destruct (Z.testbit z 0); reflexivity. }
    rewrite <- (T x Hx), <- (T y Hy), E. reflexivity. }
  rewrite Hb in E. apply lxor_cancel_r in E.
  apply Z.bits_inj'. intros n Hn.
  destruct (Z.eq_dec n 0) as [->|Hn0]; [exact Hb|].
  replace n with ((n - 1) + 1) by lia.
  rewrite <- !Z.shiftr_spec by lia. rewrite E. reflexivity.
Qed.

Lemma crc_iter_inj (k : nat) (x y : Z) :
  0 <= x < 2 ^ 32 -> 0 <= y < 2 ^ 32 ->
  Nat.iter k crc_shift x = Nat.iter k crc_shift y -> x = y.
Proof.
  intros Hx Hy. induction k as [|k IH]; [intros E; exact E|].
  rewrite !Nat.iter_succ. intros E. apply IH.
  assert (R : forall z, 0 <= z < 2 ^ 32 -> 0 <= Nat.iter k crc_shift z < 2 ^ 32).
  { intros z Hz. clear IH E. induction k as [|k IHk]; [exact Hz|].
    rewrite Nat.iter_succ. apply CrcFacts.crc_shift_range, IHk. }
  apply crc_shift_inj; auto.
Qed.

Lemma byte_lxor_range (crc : Z) (b : byte) :
  0 <= crc < 2 ^ 32 -> 0 <= Z.lxor crc (byte_val b) < 2 ^ 32.
Proof.
  intros Hc. apply lxor_range; [lia|exact Hc|].
  pose proof (byte_val_range b). simpl; lia.
Qed.

Lemma byte_val_inj (b b' : byte) : byte_val b = byte_val b' -> b = b'.
Proof.
  unfold byte_val. intros E. apply N2Z.inj in E.
  pose proof (Byte.of_to_N b) as H. rewrite E, Byte.of_to_N in H.
  injection H as ->. reflexivity.
Qed.

(** Distinct registers stay distinct over any further bytes. *)
Lemma crc_register_inj (rest : list byte) (r r' : Z) :
  0 <= r < 2 ^ 32 -> 0 <= r' < 2 ^ 32 ->
  fold_left crc_byte rest r = fold_left crc_byte rest r' -> r = r'.
Proof.
  revert r r'. induction rest as [|b rest IH]; intros r r' Hr Hr'; cbn [fold_left].
  - intros E. exact E.
  - intros E. apply IH in E; try (apply CrcFacts.crc_byte_range; assumption).
    unfold crc_byte in E.
    apply crc_iter_inj in E; try (apply byte_lxor_range; assumption).
    apply lxor_cancel_r in E. exact E.
Qed.

Lemma crc32_one_byte (pre suf : list byte) (b b' : byte) :
  calculate_crc32 (pre ++ b' :: suf) = calculate_crc32 (pre ++ b :: suf) ->
  b' = b.
Proof.
  unfold calculate_crc32. rewrite !fold_left_app. cbn [fold_left].
  set (r := fold_left crc_byte pre 0xFFFFFFFF).
  assert (Hr : 0 <= r < 2 ^ 32)
    by (apply CrcFacts.crc_register_range; simpl; lia).
  intros E.
  rewrite !u32_lnot in E
    by (apply CrcFacts.crc_register_range, CrcFacts.crc_byte_range, Hr).
  apply lxor_cancel_r in E.
  apply crc_register_inj in E; try (apply CrcFacts.crc_byte_range; exact Hr).
  unfold crc_byte in E.
  apply crc_iter_inj in E; try (apply byte_lxor_range; exact Hr).
  apply lxor_cancel_l in E. apply byte_val_inj, E.
Qed.

End CrcDetection.

(** X1.  [verify_packet] accepts a packet against the CRC computed over
    it, and rejects every packet that differs from the checked one in a
    single byte (in particular in a single bit), wherever that byte is. *)
Theorem verify_packet_one_byte (pre suf : list byte) (b b' : byte) :
  PacketValidator.verify_packet (pre ++ b' :: suf)
    (PacketValidator.calculate_crc32 (pre ++ b :: suf)) = true <-> b' = b.
Proof.
  unfold PacketValidator.verify_packet. rewrite Z.eqb_eq. split.
  - apply crc32_one_byte.
  - intros ->. reflexivity.
Qed.

(** ** The 16-bit checksum: what it does and does not see *)

Section ChecksumAlgebra.
Import PacketValidator Reference.

(** The checksum in closed form, on every byte sequence: the complement
    of the ones-complement value of the 32-bit sum of the words. *)
Lemma simple_checksum_value (bytes : list byte) :
  calculate_simple_checksum bytes =
  65535 - ones_norm (u32 (wsum (be_words bytes))).
Proof.
  unfold calculate_simple_checksum.
  rewrite ChecksumFacts.checksum_loop_sum by (simpl; lia).
  rewrite Z.add_0_l.
  assert (Hu : 0 <= u32 (wsum (be_words bytes)) < 2 ^ 32)
    by (unfold u32; apply Z.mod_pos_bound; lia).
  rewrite (ChecksumFacts.fold_carries_norm 29) by exact Hu.
  pose proof (ChecksumFacts.ones_norm_range (u32 (wsum (be_words bytes)))) as Hn.
  change 0xFFFF with (Z.ones 16).
  rewrite Z.land_ones by lia. unfold u16. rewrite Z.mod_mod by lia.
  unfold Z.lnot. change (Z.ones 16) with 65535. change (2 ^ 16) with 65536.
  Z.div_mod_to_equations. lia.
Qed.

Lemma wsum_app (a b : list Z) : wsum (a ++ b) = wsum a + wsum b.
Proof.
  induction a as [|x a IH]; cbn [wsum fold_right app]; [reflexivity|].
  fold (wsum (a ++ b)). fold (wsum a). lia.
Qed.

Lemma be_words_app_even (x y : list byte) :
  Nat.even (length x) = true -> be_words (x ++ y) = be_words x ++ be_words y.
Proof.
  induction x as [|b|hi lo rest IH] using ChecksumFacts.pairs_ind; intros He.
  - reflexivity.
  - discriminate.
  - cbn [app be_words]. rewrite IH by exact He. reflexivity.
Qed.

Lemma be_words_pad_odd (x : list byte) :
  Nat.even (length x) = false -> be_words (x ++ [x00]) = be_words x.
Proof.
  induction x as [|b|hi lo rest IH] using ChecksumFacts.pairs_ind; intros He.
  - discriminate.
  - cbn [app be_words]. change (byte_val x00) with 0. rewrite Z.add_0_r.
    reflexivity.
  - cbn [app be_words]. rewrite IH by exact He. reflexivity.
Qed.

Lemma byte_of_Z_val (z : Z) : 0 <= z < 256 -> byte_val (byte_of_Z z) = z.
Proof.
  intros Hz. unfold byte_of_Z, byte_val.
  destruct (Byte.of_N (Z.to_N z)) as [b|] eqn:E.
  - apply Byte.to_of_N in E. rewrite E. lia.
  - apply Byte.of_N_None_iff in E. lia.
Qed.

Lemma be_bytes_word (v : Z) : 0 <= v < 65536 -> be_words (be_bytes v) = [v].
Proof.
  intros Hv. unfold be_bytes. cbn [be_words].
  rewrite !byte_of_Z_val by (Z.div_mod_to_equations; lia).
  f_equal. Z.div_mod_to_equations. lia.
Qed.

End ChecksumAlgebra.

(** X2.  [calculate_simple_checksum] does not see the order of 16-bit
    words: exchanging two even-length blocks of a packet leaves the
    checksum unchanged, on every input. *)
Theorem simple_checksum_swap (x y z : list byte) :
  Nat.even (length x) = true -> Nat.even (length y) = true ->
  PacketValidator.calculate_simple_checksum (x ++ y ++ z) =
  PacketValidator.calculate_simple_checksum (y ++ x ++ z).
Proof.
  intros Hx Hy. rewrite !simple_checksum_value.
  rewrite !be_words_app_even by assumption.
  rewrite !wsum_app. do 3 f_equal. lia.
Qed.

Lemma simple_checksum_swap_witness :
  PacketValidator.calculate_simple_checksum
    ([x00; x01] ++ [xf2; x03] ++ [x7f]) =
  PacketValidator.calculate_simple_checksum
    ([xf2; x03] ++ [x00; x01] ++ [x7f]).
Proof.
  apply (simple_checksum_swap [x00; x01] [xf2; x03] [x7f]); reflexivity.
Defined.

(** X3.  A packet of even length, at most 131072 bytes, followed by the two
    bytes (high, low) of its own checksum has checksum [0x0000]. *)
Theorem simple_checksum_self_check (bytes : list byte) :
  Nat.even (length bytes) = true ->
  Z.of_nat (length bytes) <= 131072 ->
  PacketValidator.calculate_simple_checksum
    (bytes ++ be_bytes (PacketValidator.calculate_simple_checksum bytes)) = 0.
Proof.
  intros He Hlen.
  pose proof (ChecksumFacts.be_words_length bytes) as Hn.
  pose proof (ChecksumFacts.wsum_range _ (ChecksumFacts.be_words_range bytes)) as Hs.
  assert (Hw : Z.of_nat (length (Reference.be_words bytes)) <= 65536) by lia.
  set (total := Reference.wsum (Reference.be_words bytes)) in *.
  assert (HS : 0 <= total <= 4294901760) by lia.
  assert (Hc : PacketValidator.calculate_simple_checksum bytes =
               65535 - Reference.ones_norm total).
  { rewrite simple_checksum_value. fold total. unfold u32.
    rewrite Z.mod_small by (change (2 ^ 32) with 4294967296; lia). reflexivity. }
  pose proof (ChecksumFacts.ones_norm_range total) as Hn0.
  rewrite simple_checksum_value, be_words_app_even by exact He.
  rewrite be_bytes_word by (rewrite Hc; lia).
  rewrite wsum_app. fold total. rewrite Hc.
  cbn [Reference.wsum fold_right]. rewrite Z.add_0_r.
  unfold u32. rewrite Z.mod_small by (change (2 ^ 32) with 4294967296; lia).
  unfold Reference.ones_norm in *.
  destruct (Z.eqb_spec total 0) as [S0|S0].
  - rewrite S0. reflexivity.
  - destruct (Z.eqb_spec (total + (65535 - ((total - 1) mod 65535 + 1))) 0) as [E|E];
      Z.div_mod_to_equations; lia.
Qed.

Lemma simple_checksum_self_check_witness :
  PacketValidator.calculate_simple_checksum
    (checksum_sample ++
     be_bytes (PacketValidator.calculate_simple_checksum checksum_sample)) = 0.
Proof.
  apply (simple_checksum_self_check checksum_sample);
    [reflexivity|vm_compute; discriminate].
Defined.

(** X4.  On a packet of odd length the last byte is taken as the high half
    of a word whose low half is zero: appending one zero byte does not
    change the checksum, on every input. *)
Theorem simple_checksum_zero_pad (bytes : list byte) :
  Nat.even (length bytes) = false ->
  PacketValidator.calculate_simple_checksum (bytes ++ [x00]) =
  PacketValidator.calculate_simple_checksum bytes.
Proof.
  intros Ho. rewrite !simple_checksum_value, be_words_pad_odd by exact Ho.
  reflexivity.
Qed.

Lemma simple_checksum_zero_pad_witness :
  PacketValidator.calculate_simple_checksum ([x00; x01; xf2] ++ [x00]) =
  PacketValidator.calculate_simple_checksum [x00; x01; xf2].
Proof.
  apply (simple_checksum_zero_pad [x00; x01; xf2]). reflexivity.
Defined.

(** ** The life cycle of the endpoint *)

(** X5.  On an endpoint that is not open, the data-plane calls fail with
    their sentinel without any system call and without touching the
    statistics: [send_packet] returns [false], [receive_packet] returns -1
    and leaves the buffer alone, [send_and_receive] reports "Failed to
    send request", [burst_send] returns 0 and [measure_latency] returns
    -1. *)
Theorem closed_calls_fail (host : Host) (w : World) (c : FastComms)
    (frame buffer : list byte) (max_size : nat) (packets : list (list byte)) :
  ~ is_open c ->
  send_packet host frame (w, c) = (false, (w, c)) /\
  receive_packet host buffer max_size (w, c) = ((-1, buffer), (w, c)) /\
  send_and_receive host frame buffer (w, c) =
    ((mkCommResult false [] 0 "Failed to send request", buffer),
     (mkWorld (S (reads w)) (calls w) (console w), c)) /\
  burst_send host packets (w, c) = (0, (w, c)) /\
  measure_latency host frame (w, c) =
    (-1, (mkWorld (S (reads w)) (calls w) (console w), c)).
Proof.
  intros Hc.
  assert (Hsr : forall response,
             send_and_receive host frame response (w, c) =
             ((mkCommResult false [] 0 "Failed to send request", response),
              (mkWorld (S (reads w)) (calls w) (console w), c))).
  { intros response. unfold send_and_receive. cbv zeta. step. step_bind.
    rewrite (send_packet_closed host _ c frame Hc). reflexivity. }
  split; [apply send_packet_closed, Hc|].
  split; [apply receive_packet_closed, Hc|].
  split; [apply Hsr|]. split.
  - unfold burst_send.
    enough (Hn : forall n, burst_loop host packets n (w, c) = (n, (w, c)))
      by apply Hn.
    induction packets as [|packet rest IH]; intros n; cbn [burst_loop].
    + reflexivity.
    + step_bind. rewrite (send_packet_closed host w c packet Hc).
      cbn [fst snd]. apply IH.
  - unfold measure_latency. step_bind. rewrite Hsr. reflexivity.
Qed.

Lemma closed_calls_fail_witness :
  burst_send echo_host [ping; one_byte] eth0_closed = (0, eth0_closed) /\
  fst (measure_latency echo_host ping eth0_closed) = -1.
Proof.
  destruct (closed_calls_fail echo_host (fst eth0_closed) (snd eth0_closed)
              ping [] 16 [ping; one_byte]
              ltac:(intros [H _]; vm_compute in H; discriminate))
    as (_ & _ & _ & Hb & Hm).
  split; [exact Hb|]. 
  change eth0_closed with (fst eth0_closed, snd eth0_closed).
  rewrite Hm. reflexivity.
Defined.

(** X6.  [initialize] is idempotent: once it has returned [true], calling
    it again returns [true], issues no system call and changes nothing. *)
Theorem initialize_twice (host : Host) (s : State) :
  fst (initialize host s) = true ->
  initialize host (snd (initialize host s)) = (true, snd (initialize host s)).
Proof.
  destruct s as [w c]. destruct (initialized_ c) eqn:Hi.
  - rewrite (initialize_again host w c Hi). intros _. cbn [snd].
    apply initialize_again, Hi.
  - rewrite (initialize_closed host w c Hi). cbv zeta.
    destruct (_ <? 0); [discriminate|].
    destruct (_ <? 0); [discriminate|].
    destruct (_ <? 0); [discriminate|].
    intros _. cbn [snd]. apply initialize_again. reflexivity.
Qed.

Lemma initialize_twice_witness :
  initialize echo_host (eth0_open echo_host) = (true, eth0_open echo_host).
Proof.
  apply (initialize_twice echo_host eth0_closed). vm_compute. reflexivity.
Defined.

(** X7.  A failed [initialize] leaves nothing behind: the endpoint stays
    closed with [socket_fd_ = -1], and the descriptors live after the call
    are those live before it - the socket it may have obtained has been
    closed. *)
Theorem initialize_failure_releases (host : Host) (w : World) (c : FastComms) :
  initialized_ c = false ->
  fst (initialize host (w, c)) = false ->
  let s' := snd (initialize host (w, c)) in
  initialized_ (snd s') = false /\
  socket_fd_ (snd s') = -1 /\
  live host (calls (fst s')) = live host (calls w) /\
  stats_ (snd s') = stats_ c /\ timeout_ms_ (snd s') = timeout_ms_ c.
Proof.
  intros Hi. rewrite (initialize_closed host w c Hi). cbv zeta.
  set (sockfd := ret_val (kernel host (length (calls w)) sys_socket)).
  assert (Hrm : forall fds, remove_one sockfd (sockfd :: fds) = Some fds)
    by (intros fds; cbn [remove_one]; rewrite Z.eqb_refl; reflexivity).
  destruct (Z.ltb_spec sockfd 0) as [H1|H1].
  - intros _. cbn [fst snd calls live]. fold sockfd.
    rewrite (proj2 (Z.ltb_lt sockfd 0) H1).
    destruct (live host (calls w)); cbn; auto.
  - destruct (_ <? 0); [|destruct (_ <? 0); [|discriminate]];
      intros _; cbn [fst snd calls live]; fold sockfd;
      rewrite (proj2 (Z.ltb_ge sockfd 0) H1);
      destruct (live host (calls w)); rewrite ?Hrm; cbn; auto.
Qed.

Lemma initialize_failure_releases_witness :
  let s' := snd (initialize no_interface_host eth0_closed) in
  fst (initialize no_interface_host eth0_closed) = false /\
  socket_fd_ (snd s') = -1 /\
  live no_interface_host (calls (fst s')) = Some [].
Proof.
  assert (Hf : fst (initialize no_interface_host eth0_closed) = false)
    by (vm_compute; reflexivity).
  destruct (initialize_failure_releases no_interface_host
              (fst eth0_closed) (snd eth0_closed) eq_refl Hf)
    as (_ & Hfd & Hlive & _).
  cbv zeta. split; [exact Hf|]. split; [exact Hfd|exact Hlive].
Defined.

(** X10.  [close] is idempotent: a second [close] issues no system call
    and changes nothing; after [close] the endpoint is not ready. *)
Theorem close_twice (host : Host) (s : State) :
  close host (snd (close host s)) = (tt, snd (close host s)) /\
  fst (is_ready (snd (close host s))) = false /\
  socket_fd_ (snd (snd (close host s))) < 0.
Proof.
  destruct s as [[r log con] c]. rewrite (close_run host _ c).
  cbn [snd reads calls console].
  destruct (Z.leb_spec 0 (socket_fd_ c)) as [Hfd|Hfd].
  - rewrite close_run. cbn [socket_fd_ with_initialized with_socket_fd].
    split; [reflexivity|]. split; [reflexivity|]. cbn. lia.
  - rewrite close_run. cbn [socket_fd_ with_initialized with_socket_fd].
    rewrite (proj2 (Z.leb_gt 0 (socket_fd_ c)) Hfd).
    split; [reflexivity|]. split; [reflexivity|]. exact Hfd.
Qed.

(** ** Descriptors: obtained, held, released *)

Section Ownership.

Variable host : Host.

(** A call that neither obtains nor releases a descriptor. *)
Lemma live_other (call : syscall) (log : list syscall) :
  match call with sys_socket | sys_close _ => False | _ => True end ->
  live host (call :: log) = live host log.
Proof.
  intros Hc. cbn [live]. destruct (live host log); destruct call;
    try contradiction; reflexivity.
Qed.

Lemma handle_owned_same (s s' : State) :
  initialized_ (snd s') = initialized_ (snd s) ->
  socket_fd_ (snd s') = socket_fd_ (snd s) ->
  live host (calls (fst s')) = live host (calls (fst s)) ->
  handle_owned host s -> handle_owned host s'.
Proof.
  unfold handle_owned, handle_agrees, held. intros -> -> ->. tauto.
Qed.

Lemma handle_owned_time : preserves (handle_owned host) (get_timestamp_us host).
Proof.
  intros s. apply handle_owned_same; reflexivity.
Qed.

Lemma handle_owned_initialize : preserves (handle_owned host) (initialize host).
Proof.
  intros [w c] [Ha Hl]. split; [apply initialize_agrees; exact Ha|].
  unfold handle_agrees, held in *. cbn [fst snd] in *.
  destruct (initialized_ c) eqn:Hi.
  - rewrite (initialize_again host w c Hi). exact Hl.
  - assert (Hfd : socket_fd_ c < 0).
    { destruct (Z_lt_le_dec (socket_fd_ c) 0) as [|Hge]; [assumption|].
      apply Ha in Hge. discriminate. }
    rewrite (proj2 (Z.leb_gt 0 (socket_fd_ c)) Hfd) in Hl.
    rewrite (initialize_closed host w c Hi). cbv zeta.
    set (sockfd := ret_val (kernel host (length (calls w)) sys_socket)).
    destruct (Z.ltb_spec sockfd 0) as [H1|H1].
    + cbn [fst snd calls live socket_fd_ with_socket_fd]. rewrite Hl.
      fold sockfd. rewrite (proj2 (Z.ltb_lt sockfd 0) H1). reflexivity.
    + destruct (_ <? 0); [|destruct (_ <? 0)];
        cbn [fst snd calls live socket_fd_ with_socket_fd with_initialized];
        rewrite Hl; fold sockfd; rewrite (proj2 (Z.ltb_ge sockfd 0) H1);
        cbn [remove_one]; rewrite ?Z.eqb_refl;
        rewrite ?(proj2 (Z.leb_le 0 sockfd) H1); reflexivity.
Qed.

Lemma handle_owned_close : preserves (handle_owned host) (close host).
Proof.
  intros [w c] [Ha Hl]. split; [apply close_agrees; exact Ha|].
  unfold held in *. cbn [fst snd] in *. rewrite close_run. cbn [snd].
  destruct (Z.leb_spec 0 (socket_fd_ c)) as [Hfd|Hfd].
  - cbn [fst snd calls live socket_fd_ with_socket_fd with_initialized].
    rewrite Hl. cbn [remove_one]. rewrite Z.eqb_refl. reflexivity.
  - cbn [fst snd socket_fd_ with_initialized].
    rewrite (proj2 (Z.leb_gt 0 (socket_fd_ c)) Hfd). exact Hl.
Qed.

Lemma send_packet_log (frame : list byte) (w : World) (c : FastComms) :
  calls (fst (snd (send_packet host frame (w, c)))) =
  if initialized_ c && (0 <=? socket_fd_ c)
  then sys_send (socket_fd_ c) frame :: calls w
  else calls w.
Proof.
  destruct (is_open_dec c) as [Ho|Hc].
  - rewrite (send_packet_open host w c frame Ho). cbv zeta.
    rewrite (proj2 (open_test c) Ho). destruct (_ <? 0); reflexivity.
  - rewrite (send_packet_closed host w c frame Hc). cbn [fst snd].
    destruct (initialized_ c && (0 <=? socket_fd_ c)) eqn:E; [|reflexivity].
    apply open_test in E. contradiction.
Qed.

Lemma receive_packet_log (buffer : list byte) (max_size : nat)
    (w : World) (c : FastComms) :
  calls (fst (snd (receive_packet host buffer max_size (w, c)))) =
  if initialized_ c && (0 <=? socket_fd_ c)
  then sys_recv (socket_fd_ c) max_size :: calls w
  else calls w.
Proof.
  destruct (is_open_dec c) as [Ho|Hc].
  - rewrite (receive_packet_open host w c buffer max_size Ho). cbv zeta.
    rewrite (proj2 (open_test c) Ho).
    destruct (_ <? 0); [destruct (_ || _)|]; reflexivity.
  - rewrite (receive_packet_closed host w c buffer max_size Hc). cbn [fst snd].
    destruct (initialized_ c && (0 <=? socket_fd_ c)) eqn:E; [|reflexivity].
    apply open_test in E. contradiction.
Qed.

Lemma handle_owned_send (frame : list byte) :
  preserves (handle_owned host) (send_packet host frame).
Proof.
  intros [w c]. destruct (send_packet_keeps_handle host frame (w, c)) as [Hi Hf].
  apply handle_owned_same; [exact Hi|exact Hf|].
  rewrite send_packet_log. cbn [fst calls].
  destruct (_ && _); [apply live_other; exact I|reflexivity].
Qed.

Lemma handle_owned_receive (buffer : list byte) (max_size : nat) :
  preserves (handle_owned host) (receive_packet host buffer max_size).
Proof.
  intros [w c].
  destruct (receive_packet_keeps_handle host buffer max_size (w, c)) as [Hi Hf].
  apply handle_owned_same; [exact Hi|exact Hf|].
  rewrite receive_packet_log. cbn [fst calls].
  destruct (_ && _); [apply live_other; exact I|reflexivity].
Qed.

Lemma handle_owned_set_timeout (t : Z) :
  preserves (handle_owned host) (set_timeout host t).
Proof.
  intros [w c]. rewrite set_timeout_run. cbn [snd].
  destruct (_ && _); apply handle_owned_same; try reflexivity.
  cbn [fst calls]. apply live_other. exact I.
Qed.

Lemma all_frames_true (ops : list op) : Forall (op_frames (fun _ => True)) ops.
Proof.
  induction ops as [|o ops IH]; constructor; [|exact IH].
  destruct o; cbn; auto. induction packets; constructor; auto.
Qed.

Lemma handle_owned_calls (turns : nat) (ops : list op) (s s' : State) :
  handle_owned host s -> run_ops host turns ops s = Some s' ->
  handle_owned host s'.
Proof.
  intros Hs Hrun.
  apply (run_ops_preserves host (handle_owned host) (fun _ => True))
    with (turns := turns) (ops := ops) (s := s); try assumption.
  - apply handle_owned_time.
  - apply handle_owned_initialize.
  - apply handle_owned_close.
  - intros frame _. apply handle_owned_send.
  - apply handle_owned_receive.
  - apply handle_owned_set_timeout.
  - intros line s0. apply handle_owned_same; reflexivity.
  - apply all_frames_true.
  - intros _ s0. apply handle_owned_same; reflexivity.
Qed.

End Ownership.



(** X9.  Scoped use: whatever is called between the scoped entry and the
    scoped exit, after the exit the endpoint is not ready, holds no
    descriptor, and no descriptor obtained in between is left open. *)
Theorem scoped_use_releases (host : Host) (turns : nat) (body : list op)
    (interface_name : string) (timeout_ms : Z) (w : World) (s : State) :
  live host (calls w) = Some [] ->
  run_ops host turns (op_enter :: body ++ [op_exit])
          (w, FastComms_new interface_name timeout_ms) = Some s ->
  fst (is_ready s) = false /\
  initialized_ (snd s) = false /\
  socket_fd_ (snd s) < 0 /\
  live host (calls (fst s)) = Some [].
Proof.
  intros Hw Hrun.
  change (op_enter :: body ++ [op_exit])
    with ((op_enter :: body) ++ [op_exit]) in Hrun.
  rewrite run_ops_app in Hrun.
  destruct (run_ops host turns (op_enter :: body)
              (w, FastComms_new interface_name timeout_ms)) as [s1|] eqn:E1;
    [|discriminate].
  assert (H1 : handle_owned host s1).
  { apply (handle_owned_calls host turns (op_enter :: body)
             (w, FastComms_new interface_name timeout_ms) s1); [|exact E1].
    split; [|exact Hw]. unfold handle_agrees. cbn. split; [discriminate|lia]. }
  change (Some (snd (close host s1)) = Some s) in Hrun.
  injection Hrun as <-.
  pose proof (handle_owned_close host s1 H1) as [_ Hl].
  assert (Hc : initialized_ (snd (snd (close host s1))) = false /\
               socket_fd_ (snd (snd (close host s1))) < 0).
  { destruct s1 as [w1 c1]. rewrite close_run. cbn [snd].
    destruct (Z.leb_spec 0 (socket_fd_ c1)); cbn; split; (reflexivity || lia). }
  destruct Hc as [Hi Hfd].
  unfold held in Hl. rewrite (proj2 (Z.leb_gt 0 _) Hfd) in Hl.
  split; [|auto].
  change (initialized_ (snd (snd (close host s1))) &&
          (0 <=? socket_fd_ (snd (snd (close host s1)))) = false).
  rewrite Hi. reflexivity.
Qed.

Lemma scoped_use_releases_witness :
  match run_ops echo_host 100 (op_enter :: sample_ops ++ [op_exit]) eth0_closed
  with
  | Some s =>
      fst (is_ready s) = false /\ initialized_ (snd s) = false /\
      socket_fd_ (snd s) < 0 /\ live echo_host (calls (fst s)) = Some []
  | None => False
  end.
Proof.
  destruct (run_ops echo_host 100 (op_enter :: sample_ops ++ [op_exit])
              eth0_closed) as [s|] eqn:E.
  - exact (scoped_use_releases echo_host 100 sample_ops "eth0" 1000 World_new s
             eq_refl E).
  - vm_compute in E. discriminate.
Defined.

(** ** The receive timeout in force *)

Section TimeoutInForce.

Variable host : Host.

Lemma timeout_in_force_same (s s' : State) :
  (is_open (snd s') -> is_open (snd s)) ->
  socket_fd_ (snd s') = socket_fd_ (snd s) ->
  timeout_ms_ (snd s') = timeout_ms_ (snd s) ->
  last_rcvtimeo (calls (fst s')) = last_rcvtimeo (calls (fst s)) ->
  timeout_in_force s -> timeout_in_force s'.
Proof.
  unfold timeout_in_force. intros Ho -> -> ->. auto.
Qed.

Lemma timeout_in_force_initialize : preserves timeout_in_force (initialize host).
Proof.
  intros [w c] Hs. destruct (initialized_ c) eqn:Hi.
  - rewrite (initialize_again host w c Hi). exact Hs.
  - rewrite (initialize_closed host w c Hi). cbv zeta.
    destruct (_ <? 0); [|destruct (_ <? 0); [|destruct (_ <? 0)]];
      unfold timeout_in_force, is_open; cbn; rewrite ?Hi;
      solve [intros [H _]; discriminate H | reflexivity].
Qed.

Lemma timeout_in_force_close : preserves timeout_in_force (close host).
Proof.
  intros [w c] _. rewrite close_run. unfold timeout_in_force, is_open.
  destruct (0 <=? socket_fd_ c); cbn; intros [H _]; discriminate H.
Qed.

Lemma timeout_in_force_send (frame : list byte) :
  preserves timeout_in_force (send_packet host frame).
Proof.
  intros [w c]. destruct (send_packet_keeps_handle host frame (w, c)) as [Hi Hf].
  apply timeout_in_force_same.
  - unfold is_open. rewrite Hi, Hf. auto.
  - exact Hf.
  - destruct (is_open_dec c) as [Ho|Hc].
    + rewrite (send_packet_open host w c frame Ho). cbv zeta.
      destruct (_ <? 0); reflexivity.
    + rewrite (send_packet_closed host w c frame Hc). reflexivity.
  - rewrite send_packet_log. destruct (_ && _); reflexivity.
Qed.

Lemma timeout_in_force_receive (buffer : list byte) (max_size : nat) :
  preserves timeout_in_force (receive_packet host buffer max_size).
Proof.
  intros [w c].
  destruct (receive_packet_keeps_handle host buffer max_size (w, c)) as [Hi Hf].
  apply timeout_in_force_same.
  - unfold is_open. rewrite Hi, Hf. auto.
  - exact Hf.
  - destruct (is_open_dec c) as [Ho|Hc].
    + rewrite (receive_packet_open host w c buffer max_size Ho). cbv zeta.
      destruct (_ <? 0); [destruct (_ || _)|]; reflexivity.
    + rewrite (receive_packet_closed host w c buffer max_size Hc). reflexivity.
  - rewrite receive_packet_log. destruct (_ && _); reflexivity.
Qed.

Lemma timeout_in_force_set_timeout (t : Z) :
  preserves timeout_in_force (set_timeout host t).
Proof.
  intros [w c] _. rewrite set_timeout_run. cbn [snd].
  destruct (initialized_ c && (0 <=? socket_fd_ c)) eqn:E.
  - unfold timeout_in_force. cbn. reflexivity.
  - unfold timeout_in_force. cbn [snd]. intros Ho.
    assert (Ho' : is_open c) by exact Ho.
    apply open_test in Ho'. congruence.
Qed.

Lemma timeout_in_force_calls (turns : nat) (ops : list op) (s s' : State) :
  timeout_in_force s -> run_ops host turns ops s = Some s' ->
  timeout_in_force s'.
Proof.
  intros Hs Hrun.
  apply (run_ops_preserves host timeout_in_force (fun _ => True))
    with (turns := turns) (ops := ops) (s := s); try assumption.
  - intros s0. apply timeout_in_force_same; auto.
  - apply timeout_in_force_initialize.
  - apply timeout_in_force_close.
  - intros frame _. apply timeout_in_force_send.
  - apply timeout_in_force_receive.
  - apply timeout_in_force_set_timeout.
  - intros line s0. apply timeout_in_force_same; auto.
  - apply all_frames_true.
  - intros _ s0. apply timeout_in_force_same; auto.
Qed.

End TimeoutInForce.

(** X14.  Over any sequence of calls on a freshly constructed endpoint,
    whenever the endpoint is open the receive timeout last handed to the
    kernel (by [initialize] or [set_timeout]) is the stored [timeout_ms_],
    split into seconds and microseconds, on the descriptor held. *)
Theorem timeout_follows_setting (host : Host) (turns : nat) (ops : list op)
    (interface_name : string) (timeout_ms : Z) (w : World) (s : State) :
  run_ops host turns ops (w, FastComms_new interface_name timeout_ms) = Some s ->
  is_open (snd s) ->
  last_rcvtimeo (calls (fst s)) =
  Some (socket_fd_ (snd s), timeout_ms_ (snd s) / 1000,
        u32 (timeout_ms_ (snd s) mod 1000 * 1000)).
Proof.
  intros Hrun.
  apply (timeout_in_force_calls host turns ops
           (w, FastComms_new interface_name timeout_ms) s); [|exact Hrun].
  intros [H _]. discriminate H.
Qed.

Lemma timeout_follows_setting_witness :
  match run_ops echo_host 100 sample_ops eth0_closed with
  | Some s => last_rcvtimeo (calls (fst s)) = Some (3, 0, 50000)
  | None => False
  end.
Proof.
  destruct (run_ops echo_host 100 sample_ops eth0_closed) as [s|] eqn:E.
  - rewrite (timeout_follows_setting echo_host 100 sample_ops "eth0" 1000
               World_new s E).
    + vm_compute in E. injection E as <-. reflexivity.
    + vm_compute in E. injection E as <-.
      split; [reflexivity|]. cbn. lia.
  - vm_compute in E. discriminate.
Defined.

(** ** Readiness *)

(** X16.  On a state where the flag and the descriptor agree, [is_ready]
    after [initialize] is what [initialize] returned; [send_packet],
    [receive_packet], [set_timeout] and [reset_statistics] leave
    [is_ready] as it was. *)
Theorem is_ready_tracks_initialize (host : Host) (s : State)
    (frame buffer : list byte) (max_size : nat) (t : Z) :
  handle_agrees s ->
  fst (is_ready (snd (initialize host s))) = fst (initialize host s) /\
  fst (is_ready (snd (send_packet host frame s))) = fst (is_ready s) /\
  fst (is_ready (snd (receive_packet host buffer max_size s))) =
    fst (is_ready s) /\
  fst (is_ready (snd (set_timeout host t s))) = fst (is_ready s) /\
  fst (is_ready (snd (reset_statistics s))) = fst (is_ready s).
Proof.
  intros Ha.
  assert (R : forall x, fst (is_ready x) =
                        initialized_ (snd x) && (0 <=? socket_fd_ (snd x)))
    by reflexivity.
  rewrite !R.
  destruct (send_packet_keeps_handle host frame s) as [-> ->].
  destruct (receive_packet_keeps_handle host buffer max_size s) as [-> ->].
  split; [|split; [reflexivity|split; [reflexivity|split]]].
  - destruct s as [w c]. unfold handle_agrees in Ha. cbn [snd] in *.
    destruct (initialized_ c) eqn:Hi.
    + rewrite (initialize_again host w c Hi). cbn [fst snd]. rewrite Hi.
      cbn [andb]. apply Z.leb_le, Ha. reflexivity.
    + rewrite (initialize_closed host w c Hi). cbv zeta.
      destruct (Z.ltb_spec (ret_val (kernel host (length (calls w)) sys_socket)) 0);
        [|destruct (_ <? 0); [|destruct (_ <? 0)]]; cbn; rewrite ?Hi;
        try reflexivity.
      apply Z.leb_le. assumption.
  - destruct s as [w c]. rewrite set_timeout_run.
    destruct (initialized_ c && (0 <=? socket_fd_ c)); reflexivity.
  - reflexivity.
Qed.

Lemma is_ready_tracks_initialize_witness :
  fst (is_ready (snd (initialize no_interface_host eth0_closed))) = false /\
  fst (is_ready (snd (initialize echo_host eth0_closed))) = true.
Proof.
  assert (Ha : handle_agrees eth0_closed)
    by (unfold handle_agrees; cbn; split; [discriminate|lia]).
  destruct (is_ready_tracks_initialize no_interface_host eth0_closed
              ping [] 16 50 Ha) as [H1 _].
  destruct (is_ready_tracks_initialize echo_host eth0_closed ping [] 16 50 Ha)
    as [H2 _].
  rewrite H1, H2. split; vm_compute; reflexivity.
Defined.

(** ** Bursts *)

Lemma to_int_small (z : Z) : - 2 ^ 31 <= z < 2 ^ 31 -> to_int z = z.
Proof.
  intros Hz. unfold to_int. rewrite Z.mod_small; lia.
Qed.

(** The calls of the loop of [burst_send]: one [send] for each packet. *)
Lemma burst_loop_log (host : Host) (packets : list (list byte)) (n : Z)
    (w : World) (c : FastComms) :
  is_open c ->
  calls (fst (snd (burst_loop host packets n (w, c)))) =
  rev (map (sys_send (socket_fd_ c)) packets) ++ calls w.
Proof.
  revert n w c. induction packets as [|packet rest IH]; intros n w c Ho.
  - reflexivity.
  - cbn [burst_loop]. step_bind.
    destruct (send_packet_keeps_handle host packet (w, c)) as [Hi Hf].
    pose proof (send_packet_log host packet w c) as Hlog.
    rewrite (proj2 (open_test c) Ho) in Hlog.
    destruct (send_packet host packet (w, c)) as [sent [w1 c1]].
    cbn [fst snd] in *.
    assert (Ho1 : is_open c1) by (unfold is_open in *; rewrite Hi, Hf; exact Ho).
    rewrite (IH _ w1 c1 Ho1), Hf, Hlog. cbn [map rev].
    rewrite <- app_assoc. reflexivity.
Qed.

(** The count of the loop of [burst_send], as long as it fits an [int]. *)
Lemma burst_loop_count (host : Host) (packets : list (list byte)) (n : Z)
    (w : World) (c : FastComms) :
  is_open c ->
  0 <= n -> n + Z.of_nat (length packets) < 2 ^ 31 ->
  let r := burst_loop host packets n (w, c) in
  n <= fst r <= n + Z.of_nat (length packets) /\
  ((forall i frame,
       ret_val (kernel host i (sys_send (socket_fd_ c) frame)) =
       Z.of_nat (length frame)) ->
   fst r = n + Z.of_nat (length packets)).
Proof.
  revert n w c. induction packets as [|packet rest IH]; intros n w c Ho Hn Hb.
  - cbn. split; lia.
  - cbv zeta. cbn [burst_loop]. step_bind.
    cbn [length] in Hb. rewrite Nat2Z.inj_succ in Hb.
    destruct (send_packet_keeps_handle host packet (w, c)) as [Hi Hf].
    assert (Hsent : (forall i frame,
                        ret_val (kernel host i (sys_send (socket_fd_ c) frame)) =
                        Z.of_nat (length frame)) ->
                    fst (send_packet host packet (w, c)) = true).
    { intros Hall. rewrite (send_packet_open host w c packet Ho). cbv zeta.
      rewrite Hall. rewrite (proj2 (Z.ltb_ge _ 0)) by lia.
      cbn [fst]. apply Z.eqb_refl. }
    destruct (send_packet host packet (w, c)) as [sent [w1 c1]].
    cbn [fst snd] in *.
    assert (Ho1 : is_open c1) by (unfold is_open in *; rewrite Hi, Hf; exact Ho).
    rewrite (to_int_small (n + 1)) by lia.
    specialize (IH (if sent then n + 1 else n) w1 c1 Ho1
                   ltac:(destruct sent; lia) ltac:(destruct sent; lia)).
    cbv zeta in IH. destruct IH as (Hbnd & Hall).
    rewrite Hf in Hall. cbn [length]. rewrite Nat2Z.inj_succ.
    split.
    + destruct sent; lia.
    + intros Hk. rewrite (Hall Hk). rewrite (Hsent Hk). lia.
Qed.

(** X11.  On an open endpoint [burst_send] hands every packet to the
    kernel, one [send] per packet in the order given, whatever the kernel
    answers (it does not stop at a failure).  For fewer than [2 ^ 31]
    packets, so that the [int] counter cannot overflow, the value returned
    lies between 0 and the number of packets, and is the number of packets
    when the kernel accepts every frame whole. *)
Theorem burst_send_sends_all (host : Host) (w : World) (c : FastComms)
    (packets : list (list byte)) :
  is_open c ->
  Z.of_nat (length packets) < 2 ^ 31 ->
  let r := burst_send host packets (w, c) in
  calls (fst (snd r)) = rev (map (sys_send (socket_fd_ c)) packets) ++ calls w /\
  0 <= fst r <= Z.of_nat (length packets) /\
  ((forall i frame,
       ret_val (kernel host i (sys_send (socket_fd_ c) frame)) =
       Z.of_nat (length frame)) ->
   fst r = Z.of_nat (length packets)).
Proof.
  intros Ho Hlen. cbv zeta.
  split; [exact (burst_loop_log host packets 0 w c Ho)|].
  exact (burst_loop_count host packets 0 w c Ho ltac:(lia) ltac:(lia)).
Qed.

Lemma burst_send_sends_all_witness :
  let s := eth0_open net_down_sends_host in
  let r := burst_send net_down_sends_host [ping; one_byte; ping] s in
  calls (fst (snd r)) =
    [sys_send 3 ping; sys_send 3 one_byte; sys_send 3 ping] ++ calls (fst s) /\
  0 <= fst r <= 3.
Proof.
  destruct (burst_send_sends_all net_down_sends_host
              (fst (eth0_open net_down_sends_host))
              (snd (eth0_open net_down_sends_host)) [ping; one_byte; ping]
              ltac:(vm_compute; split; [reflexivity|discriminate])
              ltac:(vm_compute; reflexivity))
    as (Hl & Hb & _).
  split; [exact Hl|exact Hb].
Defined.

(** ** The stress test's own statistics *)

Section StressLocal.

Variable host : Host.

Lemma stress_loop_local (packet_size : nat) (end_time : Z)
    (test_packet : list byte) (turns : nat) :
  forall (st : PacketStats) (s : State) (st' : PacketStats),
    local_ok packet_size st ->
    fst (stress_loop host turns end_time test_packet packet_size st s) = Some st' ->
    local_ok packet_size st'.
Proof.
  induction turns as [|turns IH]; intros st s st' Hst; cbn [stress_loop].
  - discriminate.
  - step_bind. destruct (_ <? end_time).
    + step_bind. apply IH.
      destruct (fst (send_packet host test_packet _)); [|exact Hst].
      destruct Hst as (Hb & Hpr & Hbr & Ha). unfold local_ok. cbn.
      repeat split; try assumption.
      rewrite Hb. unfold u64.
      rewrite Zplus_mod_idemp_l, Zmult_mod_idemp_l. f_equal. lia.
    + cbn. intros E. injection E as <-. exact Hst.
Qed.

End StressLocal.

Lemma stress_loop_closed (host : Host) (c : FastComms) (packet_size : nat)
    (end_time : Z) (test_packet : list byte) (turns : nat) :
  ~ is_open c ->
  forall (st : PacketStats) (w : World),
    let r := stress_loop host turns end_time test_packet packet_size st (w, c) in
    snd (snd r) = c /\ calls (fst (snd r)) = calls w /\
    (forall st', fst r = Some st' ->
                 packets_sent st' = packets_sent st /\
                 bytes_sent st' = bytes_sent st).
Proof.
  intros Hc. induction turns as [|turns IH]; intros st w; cbv zeta;
    cbn [stress_loop].
  - cbn. repeat split; discriminate.
  - step. destruct (_ <? end_time).
    + step_bind. rewrite (send_packet_closed host _ c test_packet Hc).
      cbn [fst snd].
      destruct (IH (count_failed st) (mkWorld (S (reads w)) (calls w) (console w)))
        as (H1 & H2 & H3).
      split; [exact H1|]. split; [exact H2|exact H3].
    + cbn. repeat split. all: injection H as <-; reflexivity.
Qed.

(** The loop of [stress_test] writes nothing to the console. *)
Lemma stress_loop_console (host : Host) (packet_size : nat) (end_time : Z)
    (test_packet : list byte) (turns : nat) :
  forall (st : PacketStats) (s : State),
    console (fst (snd (stress_loop host turns end_time test_packet
                         packet_size st s))) = console (fst s).
Proof.
  induction turns as [|turns IH]; intros st [w c]; cbn [stress_loop].
  - reflexivity.
  - step. destruct (_ <? end_time); [|reflexivity].
    step_bind. rewrite IH.
    set (w1 := mkWorld (S (reads w)) (calls w) (console w)).
    destruct (send_packet_effect host test_packet w1 c) as (_ & Hcon & _).
    exact Hcon.
Qed.

(** X12.  The statistics returned by [stress_test] are those of the call
    alone: [bytes_sent] is [packets_sent] times the packet size (in 64-bit
    arithmetic), nothing is counted as received and no latency is
    averaged.  The one thing written to the console is the report on
    [std::cout], with [packets_sent] and the throughput
    [(bytes_sent * 8.0) / (time_sec * 1000000.0)], and it is written
    exactly when the time elapsed between the first and the last clock
    reading is positive.  On an endpoint that is not open every attempt
    fails: no packet and no byte is counted, no call is made on a socket
    and the endpoint is left as it was. *)
Theorem stress_test_own_statistics (host : Host) (turns : nat)
    (duration_ms : Z) (packet_size : nat) (w : World) (c : FastComms)
    (st : PacketStats) :
  let r := stress_test host turns duration_ms packet_size (w, c) in
  let total_time_us :=
    u64 (u64 (clock host (Nat.pred (reads (fst (snd r)))))
         - u64 (clock host (reads w))) in
  fst r = Some st ->
  bytes_sent st = u64 (packets_sent st * Z.of_nat packet_size) /\
  packets_received st = 0 /\ bytes_received st = 0 /\
  avg_latency_us st = 0%float /\
  console (fst (snd r)) =
    (if 0 <? total_time_us then
       cout_stress_test (packets_sent st)
         (double_of_u64 (bytes_sent st) * 8
          / (double_of_u64 total_time_us / 1000000 * 1000000))%float
         :: console w
     else console w) /\
  (~ is_open c ->
   packets_sent st = 0 /\ bytes_sent st = 0 /\
   snd (snd r) = c /\ calls (fst (snd r)) = calls w).
Proof.
  cbv zeta. unfold stress_test. cbv zeta. step. step_bind.
  set (end_time := u64 (u64 (clock host (reads w)) + u32 (duration_ms * 1000))).
  set (s1 := (mkWorld (S (reads w)) (calls w) (console w), c)).
  pose proof (stress_loop_local host packet_size end_time
                (repeat xaa packet_size) turns PacketStats_new s1) as Hloc.
  pose proof (fun Hc => stress_loop_closed host c packet_size end_time
                (repeat xaa packet_size) turns Hc PacketStats_new
                (mkWorld (S (reads w)) (calls w) (console w))) as Hcl.
  pose proof (stress_loop_console host packet_size end_time
                (repeat xaa packet_size) turns PacketStats_new s1) as Hcon.
  cbv zeta in Hcl. fold s1 in Hcl.
  destruct (stress_loop host turns end_time (repeat xaa packet_size)
              packet_size PacketStats_new s1) as [[st1|] [w2 c2]];
    cbn [fst snd] in *; [|discriminate].
  cbn [s1 fst console] in Hcon.
  step. step_bind. unfold stress_mbps.
  destruct (0 <? u64 (u64 (clock host (reads w2)) - u64 (clock host (reads w))))
    eqn:Epos;
    cbv beta iota delta [print ret]; cbn [fst snd reads calls console Nat.pred];
    rewrite Epos.
  all: intros E; injection E as <-.
  all: destruct (Hloc st1) as (Hb & Hpr & Hbr & Ha);
    [unfold local_ok; cbn; repeat split|reflexivity|].
  all: do 4 (split; [assumption|]).
  all: split; [rewrite Hcon; reflexivity|].
  all: intros Hc; destruct (Hcl Hc) as (H1 & H2 & H3).
  all: destruct (H3 st1 eq_refl) as [Hp Hby].
  all: repeat split; assumption.
Qed.

Lemma stress_test_own_statistics_witness :
  let r := stress_test echo_host 100 1 64 (eth0_open echo_host) in
  match fst r with
  | Some st =>
      bytes_sent st = u64 (packets_sent st * 64) /\ 1 <= packets_sent st
  | None => False
  end /\
  console (fst (snd r)) = [cout_stress_test 33 0x1.0ba8ced3e5a3cp+4%float].
Proof.
  cbv zeta.
  destruct (fst (stress_test echo_host 100 1 64 (eth0_open echo_host)))
    as [st|] eqn:E.
  - pose proof (stress_test_own_statistics echo_host 100 1 64
                  (fst (eth0_open echo_host)) (snd (eth0_open echo_host)) st E)
      as H.
    cbv zeta in H. destruct H as (Hb & _ & _ & _ & Hcon & _).
    vm_compute in E. injection E as <-. vm_compute in Hcon.
    split.
    + split; [exact Hb|]. vm_compute. discriminate.
    + vm_compute. exact Hcon.
  - vm_compute in E. discriminate.
Defined.

(** ** A frame received *)

Lemma received_buffer (bytes buffer : list byte) (max_size : nat) :
  (length bytes <= max_size)%nat ->
  resize (overwrite (firstn (length bytes) bytes) (resize buffer max_size))
         (length bytes) = bytes.
Proof.
  intros Hlen. rewrite firstn_all. unfold overwrite, resize at 1.
  rewrite firstn_app, firstn_all, Nat.sub_diag, firstn_O, app_nil_r.
  rewrite length_app, length_skipn, resize_length.
  replace (length bytes - (length bytes + (max_size - length bytes)))%nat
    with 0%nat by lia.
  apply app_nil_r.
Qed.

(** X13.  On an open endpoint, when [recv] delivers [n] bytes, with
    [n <= max_size] and [n] below [2 ^ 31], [receive_packet] returns [n]
    and hands back exactly the bytes delivered, whatever the buffer held
    before; [packets_received] is incremented, [bytes_received] grows by
    [n], and the other statistics, the average latency included, are
    unchanged. *)
Theorem receive_packet_delivers (host : Host) (w : World) (c : FastComms)
    (buffer : list byte) (max_size : nat) :
  is_open c ->
  let r := kernel host (length (calls w)) (sys_recv (socket_fd_ c) max_size) in
  let n := Z.of_nat (length (out_bytes r)) in
  ret_val r = n -> (length (out_bytes r) <= max_size)%nat -> n < 2 ^ 31 ->
  let res := receive_packet host buffer max_size (w, c) in
  let st := stats_ c in
  let st' := stats_ (snd (snd res)) in
  fst res = (n, out_bytes r) /\
  packets_received st' = u64 (packets_received st + 1) /\
  bytes_received st' = u64 (bytes_received st + n) /\
  packets_sent st' = packets_sent st /\ bytes_sent st' = bytes_sent st /\
  errors st' = errors st /\ avg_latency_us st' = avg_latency_us st.
Proof.
  intros Ho r n Hret Hmax Hint res st st'. subst res st'.
  rewrite (receive_packet_open host w c buffer max_size Ho). cbv zeta.
  fold r. rewrite Hret. fold n.
  destruct (Z.ltb_spec n 0) as [Hneg|_]; [subst n; lia|].
  cbn [fst snd stats_ with_stats]. split.
  - f_equal.
    + unfold to_int. subst n. rewrite Z.mod_small; lia.
    + subst n. rewrite Nat2Z.id. apply received_buffer, Hmax.
  - cbn. fold st. tauto.
Qed.

Lemma receive_packet_delivers_witness :
  fst (receive_packet echo_host [xff; xff; xff; xff; xff; xff] 16
         (eth0_open echo_host)) = (4, ping).
Proof.
  destruct (receive_packet_delivers echo_host (fst (eth0_open echo_host))
              (snd (eth0_open echo_host)) [xff; xff; xff; xff; xff; xff] 16
              ltac:(vm_compute; split; [reflexivity|discriminate])
              ltac:(vm_compute; reflexivity)
              ltac:(cbn; lia)
              ltac:(vm_compute; reflexivity)) as [H _].
  exact H.
Defined.

(** ** Round-trip latency *)

(** X15.  On an open endpoint [measure_latency] returns -1 when the kernel
    does not accept the whole payload, or when [recv] fails, times out or
    delivers nothing.  When the payload is accepted whole and [recv]
    delivers a frame, it returns the difference between the clock reading
    taken after the receive and the one taken before the send, provided
    the clock has not gone backwards between them (readings below
    [2 ^ 63]). *)
Theorem measure_latency_value (host : Host) (w : World) (c : FastComms)
    (payload : list byte) :
  is_open c ->
  let size := Z.of_nat (length payload) in
  let sent := ret_val (kernel host (length (calls w))
                              (sys_send (socket_fd_ c) payload)) in
  let reply := kernel host (S (length (calls w)))
                      (sys_recv (socket_fd_ c) default_max_size) in
  let t0 := clock host (reads w) in
  let t3 := clock host (S (S (S (reads w)))) in
  let m := fst (measure_latency host payload (w, c)) in
  (sent <> size \/ ret_val reply <= 0 -> m = -1) /\
  (sent = size -> 0 < ret_val reply < 2 ^ 31 ->
   0 <= t0 <= t3 -> t3 < 2 ^ 63 -> m = t3 - t0).
Proof.
  intros Ho size sent reply t0 t3 m. subst m.
  unfold measure_latency, send_and_receive. cbv zeta. step_bind. step.
  step_bind. rewrite (send_packet_open host _ c payload Ho). cbv zeta.
  cbn [reads calls console]. fold sent. fold size.
  destruct (Z.ltb_spec sent 0) as [Hneg|Hnn]; cbn [fst snd negb].
  { split; [reflexivity|]. intros; lia. }
  destruct (Z.eqb_spec sent size) as [Heq|Hne]; cbn [fst snd negb].
  2: { split; [reflexivity|]. intros; contradiction. }
  step_bind.
  match goal with
  | |- context [receive_packet host [] default_max_size (?w1, ?c1)] =>
      assert (Ho1 : is_open c1) by exact Ho;
      rewrite (receive_packet_open host w1 c1 [] default_max_size Ho1)
  end.
  cbv zeta. cbn [calls length socket_fd_ with_stats]. fold reply.
  destruct (Z.ltb_spec (ret_val reply) 0) as [Hrn|Hrp].
  { destruct (_ || _); cbn [fst snd]; (split; [reflexivity|intros; lia]). }
  cbn [fst snd].
  assert (Hti : ret_val reply < 2 ^ 31 -> to_int (ret_val reply) = ret_val reply)
    by (intros Hlt; unfold to_int; rewrite Z.mod_small; lia).
  split.
  - intros [Hs|Hz]; [contradiction|].
    assert (Hr0 : ret_val reply = 0) by lia.
    rewrite Hti by lia. rewrite Hr0. reflexivity.
  - intros _ Hr Ht Ht3. rewrite Hti by lia.
    destruct (Z.ltb_spec (ret_val reply) 0) as [|_]; [lia|].
    destruct (Z.eqb_spec (ret_val reply) 0) as [|_]; [lia|].
    step. cbn [success latency_us fst]. fold t0. fold t3.
    unfold to_int64, u64. rewrite (Z.mod_small t0), (Z.mod_small t3) by lia.
    rewrite (Z.mod_small (t3 - t0)) by lia. rewrite Z.mod_small; lia.
Qed.

Lemma measure_latency_value_witness :
  fst (measure_latency echo_host ping (eth0_open echo_host)) = 30 /\
  fst (measure_latency would_block_host ping (eth0_open would_block_host)) = -1.
Proof.
  split.
  - destruct (measure_latency_value echo_host (fst (eth0_open echo_host))
                (snd (eth0_open echo_host)) ping
                ltac:(vm_compute; split; [reflexivity|discriminate]))
      as [_ H].
    etransitivity;
      [exact (H ltac:(vm_compute; reflexivity)
                ltac:(vm_compute; split; reflexivity)
                ltac:(vm_compute; split; discriminate)
                ltac:(vm_compute; reflexivity))|].
    vm_compute. reflexivity.
  - destruct (measure_latency_value would_block_host
                (fst (eth0_open would_block_host))
                (snd (eth0_open would_block_host)) ping
                ltac:(vm_compute; split; [reflexivity|discriminate]))
      as [H _].
    exact (H ltac:(right; vm_compute; discriminate)).
Defined.

(** ** The counters against the kernel's replies *)

Lemma u64_add_idem (a b : Z) : u64 (u64 a + b) = u64 (a + b).
Proof. unfold u64. apply Zplus_mod_idemp_l. Qed.

Lemma tally_short (f : nat -> syscall -> Z) (n : nat) (log : list syscall) :
  (length log <= n)%nat -> tally f n log = 0.
Proof.
  induction log as [|call rest IH]; cbn [tally length]; intros Hlen.
  - reflexivity.
  - rewrite IH by lia. rewrite (proj2 (Nat.leb_gt n (length rest))) by lia.
    reflexivity.
Qed.

Section Exact.

Variable host : Host.
Variable n : nat.

Lemma tally_head (f : nat -> syscall -> Z) (call : syscall) (log : list syscall) :
  (n <= length log)%nat ->
  tally f n (call :: log) = f (length log) call + tally f n log.
Proof.
  intros Hn. cbn [tally]. rewrite (proj2 (Nat.leb_le n (length log)) Hn).
  reflexivity.
Qed.

Lemma counters_exact_same (s s' : State) :
  calls (fst s') = calls (fst s) -> stats_ (snd s') = stats_ (snd s) ->
  counters_exact host n s -> counters_exact host n s'.
Proof.
  unfold counters_exact. intros -> ->. auto.
Qed.

(** A call that contributes to no counter. *)
Lemma counters_exact_quiet (r r' : nat) (log : list syscall) (c c' : FastComms)
    (call : syscall) (con con' : list console_line) :
  sent_ok host (length log) call = 0 ->
  sent_bytes host (length log) call = 0 ->
  received_ok host (length log) call = 0 ->
  received_bytes host (length log) call = 0 ->
  failed host (length log) call = 0 ->
  stats_ c' = stats_ c ->
  counters_exact host n (mkWorld r log con, c) ->
  counters_exact host n (mkWorld r' (call :: log) con', c').
Proof.
  unfold counters_exact. cbn [fst snd calls].
  intros H1 H2 H3 H4 H5 -> (Hn & Hp & Hb & Hpr & Hbr & He).
  rewrite !tally_head by exact Hn. rewrite H1, H2, H3, H4, H5.
  cbn [length]. repeat split; try assumption. lia.
Qed.

Lemma counters_exact_time : preserves (counters_exact host n) (get_timestamp_us host).
Proof.
  intros s. apply counters_exact_same; reflexivity.
Qed.

Lemma counters_exact_initialize :
  preserves (counters_exact host n) (initialize host).
Proof.
  intros [[r log con] c] Hs. destruct (initialized_ c) eqn:Hi.
  - rewrite (initialize_again host _ c Hi). exact Hs.
  - rewrite (initialize_closed host _ c Hi). cbv zeta. cbn [reads calls console].
    destruct (_ <? 0); [|destruct (_ <? 0); [|destruct (_ <? 0)]]; cbn [snd];
      repeat (apply (counters_exact_quiet r) with (c := c) (con := con); try reflexivity);
      exact Hs.
Qed.

Lemma counters_exact_close : preserves (counters_exact host n) (close host).
Proof.
  intros [[r log con] c] Hs. rewrite close_run. cbn [snd reads calls console].
  destruct (0 <=? socket_fd_ c).
  - apply (counters_exact_quiet r) with (c := c) (con := con); try reflexivity. exact Hs.
  - revert Hs. apply counters_exact_same; reflexivity.
Qed.

Lemma counters_exact_set_timeout (t : Z) :
  preserves (counters_exact host n) (set_timeout host t).
Proof.
  intros [[r log con] c] Hs. rewrite set_timeout_run. cbn [snd reads calls console].
  destruct (_ && _).
  - apply (counters_exact_quiet r) with (c := c) (con := con); try reflexivity. exact Hs.
  - revert Hs. apply counters_exact_same; reflexivity.
Qed.

Lemma counters_exact_send (frame : list byte) :
  preserves (counters_exact host n) (send_packet host frame).
Proof.
  intros [[r log con] c] Hs. destruct (is_open_dec c) as [Ho|Hc];
    [|rewrite (send_packet_closed host _ c frame Hc); exact Hs].
  rewrite (send_packet_open host _ c frame Ho). cbv zeta. cbn [reads calls console].
  set (call := sys_send (socket_fd_ c) frame).
  set (sent := ret_val (kernel host (length log) call)).
  unfold counters_exact in Hs. cbn [fst snd calls] in Hs.
  destruct Hs as (Hn & Hp & Hb & Hpr & Hbr & He).
  assert (Hok : sent_ok host (length log) call = if sent <? 0 then 0 else 1)
    by reflexivity.
  assert (Hby : sent_bytes host (length log) call = Z.max 0 sent) by reflexivity.
  assert (Hfl : failed host (length log) call = if sent <? 0 then 1 else 0)
    by reflexivity.
  destruct (Z.ltb_spec sent 0) as [Hneg|Hnn];
    unfold counters_exact; cbv zeta; cbn [fst snd calls stats_ with_stats];
    rewrite !tally_head by exact Hn; rewrite Hok, Hby, Hfl;
    change (received_ok host (length log) call) with 0;
    change (received_bytes host (length log) call) with 0; cbn [length].
  - cbn [count_failed packets_sent bytes_sent packets_received bytes_received
         errors].
    rewrite He, u64_add_idem. rewrite Z.max_l by lia.
    repeat split; try assumption; try lia. f_equal. lia.
  - destruct (smooth_latency_counters (count_sent (stats_ c) sent)
                (u64 (u64 (clock host (S r)) - u64 (clock host r))))
      as (-> & -> & -> & -> & ->).
    cbn [count_sent packets_sent bytes_sent packets_received bytes_received
         errors].
    rewrite Hp at 1. rewrite Hb at 1. rewrite !u64_add_idem.
    rewrite Z.max_r by lia.
    repeat split; try assumption; try lia; f_equal; lia.
Qed.

Lemma counters_exact_receive (buffer : list byte) (max_size : nat) :
  preserves (counters_exact host n) (receive_packet host buffer max_size).
Proof.
  intros [[r log con] c] Hs. destruct (is_open_dec c) as [Ho|Hc];
    [|rewrite (receive_packet_closed host _ c buffer max_size Hc); exact Hs].
  rewrite (receive_packet_open host _ c buffer max_size Ho). cbv zeta.
  cbn [reads calls console].
  set (call := sys_recv (socket_fd_ c) max_size).
  set (reply := kernel host (length log) call).
  unfold counters_exact in Hs. cbn [fst snd calls] in Hs.
  destruct Hs as (Hn & Hp & Hb & Hpr & Hbr & He).
  assert (Hok : received_ok host (length log) call =
                if ret_val reply <? 0 then 0 else 1) by reflexivity.
  assert (Hby : received_bytes host (length log) call = Z.max 0 (ret_val reply))
    by reflexivity.
  assert (Hfl : failed host (length log) call =
                if ret_val reply <? 0 then
                  if (errno reply =? EAGAIN) || (errno reply =? EWOULDBLOCK)
                  then 0 else 1
                else 0) by reflexivity.
  destruct (Z.ltb_spec (ret_val reply) 0) as [Hneg|Hnn];
    [destruct ((errno reply =? EAGAIN) || (errno reply =? EWOULDBLOCK))|];
    unfold counters_exact; cbv zeta; cbn [fst snd calls stats_ with_stats];
    rewrite !tally_head by exact Hn; rewrite Hok, Hby, Hfl;
    change (sent_ok host (length log) call) with 0;
    change (sent_bytes host (length log) call) with 0; cbn [length].
  - rewrite Z.max_l by lia. repeat split; try assumption; lia.
  - cbn [count_failed packets_sent bytes_sent packets_received bytes_received
         errors].
    rewrite He, u64_add_idem. rewrite Z.max_l by lia.
    repeat split; try assumption; try lia. f_equal. lia.
  - destruct (smooth_latency_counters
                (count_received (stats_ c) (ret_val reply)) 0)
      as (-> & -> & -> & -> & ->).
    cbn [count_received packets_sent bytes_sent packets_received bytes_received
         errors].
    rewrite Hpr at 1. rewrite Hbr at 1. rewrite !u64_add_idem.
    rewrite Z.max_r by lia.
    repeat split; try assumption; try lia; f_equal; lia.
Qed.

Lemma counters_exact_calls (turns : nat) (ops : list op) (s s' : State) :
  existsb is_reset ops = false ->
  counters_exact host n s -> run_ops host turns ops s = Some s' ->
  counters_exact host n s'.
Proof.
  intros Hreset Hs Hrun.
  apply (run_ops_preserves host (counters_exact host n) (fun _ => True))
    with (turns := turns) (ops := ops) (s := s); try assumption.
  - apply counters_exact_time.
  - apply counters_exact_initialize.
  - apply counters_exact_close.
  - intros frame _. apply counters_exact_send.
  - apply counters_exact_receive.
  - apply counters_exact_set_timeout.
  - intros line s0. apply counters_exact_same; reflexivity.
  - apply all_frames_true.
  - intros E. rewrite Hreset in E. discriminate.
Qed.

End Exact.

(** X19.  Starting from all-zero statistics (a fresh endpoint, or just
    after [reset_statistics]) and over any calls other than
    [reset_statistics], the counters are exactly what the kernel reported
    since then, in 64-bit arithmetic: [packets_sent] and [bytes_sent] count
    the [send]s that did not fail and the bytes they accepted,
    [packets_received] and [bytes_received] the [recv]s that did not fail
    and the bytes they delivered, and [errors] the [send]s that failed and
    the [recv]s that failed otherwise than by timing out. *)
Theorem counters_match_kernel (host : Host) (turns : nat) (ops : list op)
    (s0 s : State) :
  stats_ (snd s0) = PacketStats_new ->
  existsb is_reset ops = false ->
  run_ops host turns ops s0 = Some s ->
  let n := length (calls (fst s0)) in
  let st := stats_ (snd s) in
  let log := calls (fst s) in
  packets_sent st = u64 (tally (sent_ok host) n log) /\
  bytes_sent st = u64 (tally (sent_bytes host) n log) /\
  packets_received st = u64 (tally (received_ok host) n log) /\
  bytes_received st = u64 (tally (received_bytes host) n log) /\
  errors st = u64 (tally (failed host) n log).
Proof.
  intros Hzero Hreset Hrun n st log.
  assert (H0 : counters_exact host n s0).
  { unfold counters_exact. cbv zeta. rewrite Hzero.
    rewrite !tally_short by (subst n; lia). cbn. repeat split. subst n. lia. }
  destruct (counters_exact_calls host n turns ops s0 s Hreset H0 Hrun)
    as (_ & H). exact H.
Qed.

Lemma counters_match_kernel_witness :
  match run_ops net_down_host 100 mixed_ops (eth0_open net_down_host) with
  | Some s =>
      packets_sent (stats_ (snd s)) = 4 /\ bytes_sent (stats_ (snd s)) = 13 /\
      packets_received (stats_ (snd s)) = 0 /\ errors (stats_ (snd s)) = 2
  | None => False
  end.
Proof.
  destruct (run_ops net_down_host 100 mixed_ops (eth0_open net_down_host))
    as [s|] eqn:E.
  - destruct (counters_match_kernel net_down_host 100 mixed_ops
                (eth0_open net_down_host) s eq_refl eq_refl E)
      as (Hp & Hb & Hpr & _ & He).
    rewrite Hp, Hb, Hpr, He.
    vm_compute in E. injection E as <-. vm_compute. auto.
  - vm_compute in E. discriminate.
Defined.

(** ** The interface name handed to the kernel *)






(** ** A complete exchange *)

Lemma smooth_packets_sent (st : PacketStats) (latency : Z) :
  packets_sent (smooth_latency st latency) = packets_sent st.
Proof. apply smooth_latency_counters. Qed.

Lemma smooth_bytes_sent (st : PacketStats) (latency : Z) :
  bytes_sent (smooth_latency st latency) = bytes_sent st.
Proof. apply smooth_latency_counters. Qed.

Lemma smooth_packets_received (st : PacketStats) (latency : Z) :
  packets_received (smooth_latency st latency) = packets_received st.
Proof. apply smooth_latency_counters. Qed.

Lemma smooth_bytes_received (st : PacketStats) (latency : Z) :
  bytes_received (smooth_latency st latency) = bytes_received st.
Proof. apply smooth_latency_counters. Qed.

Lemma smooth_errors (st : PacketStats) (latency : Z) :
  errors (smooth_latency st latency) = errors st.
Proof. apply smooth_latency_counters. Qed.

(** X18.  On an open endpoint, when the kernel accepts the whole request
    and then delivers a frame of [n] bytes, [0 < n <= 4096],
    [send_and_receive] succeeds with [data] the bytes delivered (the
    response buffer passed in is overwritten with them), issues one [send]
    and then one [recv], and counts one packet and [|request|] bytes sent,
    one packet and [n] bytes received, and no error. *)
Theorem send_and_receive_exchange (host : Host) (w : World) (c : FastComms)
    (request response : list byte) :
  is_open c ->
  let size := Z.of_nat (length request) in
  let send := sys_send (socket_fd_ c) request in
  let recv := sys_recv (socket_fd_ c) default_max_size in
  let sent := ret_val (kernel host (length (calls w)) send) in
  let reply := kernel host (S (length (calls w))) recv in
  let n := Z.of_nat (length (out_bytes reply)) in
  sent = size -> ret_val reply = n -> 0 < n <= 4096 ->
  let res := send_and_receive host request response (w, c) in
  let st := stats_ c in
  let st' := stats_ (snd (snd res)) in
  success (fst (fst res)) = true /\
  data (fst (fst res)) = out_bytes reply /\
  snd (fst res) = out_bytes reply /\
  error_message (fst (fst res)) = EmptyString /\
  calls (fst (snd res)) = recv :: send :: calls w /\
  packets_sent st' = u64 (packets_sent st + 1) /\
  bytes_sent st' = u64 (bytes_sent st + size) /\
  packets_received st' = u64 (packets_received st + 1) /\
  bytes_received st' = u64 (bytes_received st + n) /\
  errors st' = errors st.
Proof.
  intros Ho size send recv sent reply n Hsent Hret Hn res st st'.
  subst res st'.
  unfold send_and_receive. cbv zeta. step.
  step_bind. rewrite (send_packet_open host _ c request Ho). cbv zeta.
  cbn [reads calls console]. fold send. fold sent. rewrite Hsent.
  destruct (Z.ltb_spec size 0) as [Hneg|_]; [subst size; lia|].
  rewrite Z.eqb_refl. cbn [fst snd negb].
  step_bind.
  match goal with
  | |- context [receive_packet host response default_max_size (?w1, ?c1)] =>
      assert (Ho1 : is_open c1) by exact Ho;
      rewrite (receive_packet_open host w1 c1 response default_max_size Ho1)
  end.
  cbv zeta. cbn [calls length socket_fd_ with_stats]. fold recv. fold reply.
  rewrite Hret.
  destruct (Z.ltb_spec n 0) as [|_]; [lia|]. cbn [fst snd].
  assert (Hti : to_int n = n) by (unfold to_int; rewrite Z.mod_small; lia).
  rewrite Hti.
  destruct (Z.ltb_spec n 0) as [|_]; [lia|].
  destruct (Z.eqb_spec n 0) as [|_]; [lia|].
  step. cbn [success data error_message fst snd calls stats_ with_stats].
  assert (Hbuf : resize (overwrite (firstn (Z.to_nat n) (out_bytes reply))
                                   (resize response default_max_size))
                        (Z.to_nat n) = out_bytes reply).
  { subst n. rewrite Nat2Z.id. apply received_buffer.
    change default_max_size with 4096%nat. lia. }
  rewrite Hbuf.
  rewrite !smooth_packets_sent, !smooth_bytes_sent, !smooth_packets_received,
    !smooth_bytes_received, !smooth_errors.
  cbn [count_received count_sent packets_sent bytes_sent packets_received
       bytes_received errors].
  rewrite !smooth_packets_sent, !smooth_bytes_sent, !smooth_packets_received,
    !smooth_bytes_received, !smooth_errors.
  cbn. repeat split.
Qed.

Lemma send_and_receive_exchange_witness :
  let res := send_and_receive echo_host ping [xff] (eth0_open echo_host) in
  success (fst (fst res)) = true /\ data (fst (fst res)) = ping.
Proof.
  destruct (send_and_receive_exchange echo_host (fst (eth0_open echo_host))
              (snd (eth0_open echo_host)) ping [xff]
              ltac:(vm_compute; split; [reflexivity|discriminate])
              ltac:(vm_compute; reflexivity)
              ltac:(vm_compute; reflexivity)
              ltac:(vm_compute; split; [reflexivity|discriminate]))
    as (Hs & Hd & _).
  split; [exact Hs|exact Hd].
Defined.
